(** * Logger: a shallow embedding of [logger.hpp]

    The header defines one class, [Logger], with static state
    ([log_mutex], [log_config], [profiling_data]) and static member
    functions.  This development embeds

    - the string operations [format_message] relies on
      ([std::string::find] and [std::string::replace]),
    - the formatter ([format_message], [get_log_level_prefix]),
    - the operations ([log], [start_profiling], [end_profiling],
      [profile_function], [set_config]) as programs over the shared state,
      run by an interleaving machine with one calling thread and the
      threads started by [std::async].

    A property of an operation is stated for every schedule of the machine:
    which thread moves next, what the clocks read and whether a file can be
    opened are chosen by the schedule.  *)

From stdpp Require Import gmap strings pretty list.
From Stdlib Require Import ZArith NArith Ascii.

Local Open Scope Z_scope.

(** ** Exceptions and results *)

(** [std::out_of_range] is what [std::string::replace] throws; [user_error]
    stands for whatever a profiled callable throws. *)
Inductive exn : Type :=
| out_of_range
| user_error (what : string).

Inductive result (A : Type) : Type :=
| Ok (a : A)
| Raise (e : exn).
Arguments Ok {A} a.
Arguments Raise {A} e.

(** Sequencing: an exception skips the rest. *)
Global Instance result_bind : MBind result := λ A B f r,
  match r with
  | Ok a => f a
  | Raise e => Raise e
  end.

(** ** [std::string] *)

Module std_string.

(** [size_type] is an unsigned 64-bit integer; [npos] is its largest value. *)
Definition npos : N := 18446744073709551615%N.

Fixpoint starts_with (tok s : string) : bool :=
  match tok, s with
  | EmptyString, _ => true
  | String _ _, EmptyString => false
  | String a tok', String b s' =>
      if decide (a = b) then starts_with tok' s' else false
  end.

(** Index of the first occurrence of [tok] in [s], if any. *)
Fixpoint find_nat (s tok : string) : option nat :=
  if starts_with tok s then Some 0%nat
  else match s with
       | EmptyString => None
       | String _ s' => S <$> find_nat s' tok
       end.

(** [s.find(tok)]: the position of the first occurrence, [npos] when there
    is none. *)
Definition find (s tok : string) : N :=
  match find_nat s tok with
  | Some i => N.of_nat i
  | None => npos
  end.

Fixpoint take (n : nat) (s : string) : string :=
  match n, s with
  | O, _ => EmptyString
  | S _, EmptyString => EmptyString
  | S n', String c s' => String c (take n' s')
  end.

Fixpoint drop (n : nat) (s : string) : string :=
  match n, s with
  | O, _ => s
  | S _, EmptyString => EmptyString
  | S n', String _ s' => drop n' s'
  end.

(** [s.replace(pos, count, v)]: throws [std::out_of_range] when
    [pos > s.size()]; otherwise the characters in
    [[pos, min(pos + count, size))] are replaced by [v]. *)
Definition replace (s : string) (pos count : N) (v : string) : result string :=
  if (N.of_nat (String.length s) <? pos)%N then Raise out_of_range
  else Ok (take (N.to_nat pos) s +:+ v +:+ drop (N.to_nat pos + N.to_nat count) s).

End std_string.

(** ** [Logger::LogLevel] *)

(** A scoped enumeration without a fixed underlying type has underlying type
    [int]; every [int] is a value of it, the four enumerators being 0..3. *)
Definition LogLevel : Type := Z.
Definition Info : LogLevel := 0.
Definition Warning : LogLevel := 1.
Definition Error : LogLevel := 2.
Definition Debug : LogLevel := 3.

(** ** [Logger::Config] *)

Record Config : Type := {
  console_output : bool;
  file_output : bool;
  remote_logging : bool;
  log_format : string;
  log_filename : string
}.

Definition newline : string := String (ascii_of_nat 10) EmptyString.

(** The default member initialisers of [Config]. *)
Definition default_config : Config := {|
  console_output := true;
  file_output := false;
  remote_logging := false;
  log_format :=
    "[%timestamp%] %level% %message%" +:+ newline +:+
    " -> File: %file%:%line% (Function: %function%)" +:+ newline;
  log_filename := "error_log.txt"
|}.

(** ** [std::source_location] and [std::tm] *)

Record source_location : Type := {
  file_name : string;
  line : N;
  function_name : string
}.

(** The broken-down local time [std::localtime] returns. *)
Record tm : Type := {
  tm_year : N;  (* years since 1900 *)
  tm_mon : N;   (* 0..11 *)
  tm_mday : N;
  tm_hour : N;
  tm_min : N;
  tm_sec : N
}.

Definition two_digits (n : N) : string :=
  if (n <? 10)%N then "0" +:+ pretty n else pretty n.

(** [std::put_time(t, "%Y-%m-%d %H:%M:%S")]. *)
Definition put_time (t : tm) : string :=
  pretty (1900 + tm_year t)%N +:+ "-" +:+ two_digits (tm_mon t + 1)%N +:+ "-" +:+
  two_digits (tm_mday t) +:+ " " +:+ two_digits (tm_hour t) +:+ ":" +:+
  two_digits (tm_min t) +:+ ":" +:+ two_digits (tm_sec t).

(** ** Console attributes ([wincon.h]) *)

Definition FOREGROUND_BLUE : Z := 1.
Definition FOREGROUND_GREEN : Z := 2.
Definition FOREGROUND_RED : Z := 4.

(** ** The formatter's pure part *)

(** [get_log_level_prefix(level)]: the attribute it passes to
    [SetConsoleTextAttribute] and the prefix it returns. *)
Definition get_log_level_prefix (level : LogLevel) : Z * string :=
  match level with
  | 0 => (FOREGROUND_GREEN, "[+]")
  | 1 => (Z.lor FOREGROUND_RED FOREGROUND_GREEN, "[!]")
  | 2 => (FOREGROUND_RED, "[-]")
  | 3 => (FOREGROUND_BLUE, "[*]")
  | _ => (Z.lor (Z.lor FOREGROUND_RED FOREGROUND_GREEN) FOREGROUND_BLUE, "[?]")
  end.

Import std_string.

(** Line 96 of [format_message]: the timestamp substitution. *)
Definition replace_timestamp (formatted_message : string) (time : tm) : result string :=
  replace formatted_message (find formatted_message "%timestamp%") 10 (put_time time).

(** Lines 97-101 of [format_message], with the prefix already computed. *)
Definition replace_rest (formatted_message prefix message : string)
    (location : source_location) : result string :=
  m ← replace formatted_message (find formatted_message "%level%") 7 prefix;
  m ← replace m (find m "%message%") 9 message;
  m ← replace m (find m "%file%") 6 (file_name location);
  m ← replace m (find m "%line%") 6 (pretty (line location));
  replace m (find m "%function%") 10 (function_name location).

(** The string [format_message] returns for a given template and local
    time (the console attribute it sets on the way is in [format_message]
    below). *)
Definition render (template : string) (time : tm) (message : string)
    (level : LogLevel) (location : source_location) : result string :=
  m ← replace_timestamp template time;
  replace_rest m (get_log_level_prefix level).2 message location.

(** ** Message parts *)

(** The variadic arguments of [log] are streamed into one
    [std::ostringstream] that [log] has just created, so every part is
    printed with the default formatting of a stream.  A part is a value of a
    string type ([const char*], [std::string], [std::string_view]), of a
    character type ([char] and the 8-bit integer types, which print as the
    character), or of a wider integer type, which prints in decimal.  Parts
    that change the formatting state of the stream or print by it
    (manipulators, floating-point values) are outside this embedding. *)
Inductive arg : Type :=
| text (s : string)
| character (c : ascii)
| number (z : Z).

Definition stream_out (a : arg) : string :=
  match a with
  | text s => s
  | character c => String c EmptyString
  | number z => pretty z
  end.

(** [(message_stream << ... << args)]: the parts in call order, nothing
    in between. *)
Definition stream_all (args : list arg) : string :=
  foldr (λ a s, stream_out a +:+ s) "" args.

(** ** Threads and shared state *)

Inductive tid : Type :=
| Caller
| Async_thread (i : nat).

(** [duration_cast<microseconds>(end_time - start).count()]: the clock
    counts nanoseconds, the cast truncates. *)
Definition microseconds (start end_time : Z) : Z := Z.quot (end_time - start) 1000.

Section Logger.

(** The state of the program around the logger, which a profiled callable
    may read and change. *)
Context {U : Type}.

(** What [std::source_location::current()] reports inside the header: the
    header's file name as the compiler saw it and the names it gives the two
    member functions.  The line numbers are those of the header. *)
Variable header_file : string.
Variable end_profiling_name : string.
Variable profile_function_name : string.

Definition end_profiling_location : source_location :=
  {| file_name := header_file; line := 64; function_name := end_profiling_name |}.
Definition profile_function_location : source_location :=
  {| file_name := header_file; line := 76; function_name := profile_function_name |}.

(** The static members of [Logger], the two sinks, the console attribute,
    the last reading of [high_resolution_clock] and the user's state.
    [cerr] and each file hold the chunks written to them, oldest first. *)
Record world : Type := World {
  log_config : Config;
  log_mutex : option tid;
  profiling_data : gmap string Z;
  steady : Z;
  console_attribute : Z;
  cerr : list string;
  files : gmap string (list string);
  user : U
}.

Definition with_config (c : Config) (w : world) : world :=
  World c (log_mutex w) (profiling_data w) (steady w) (console_attribute w)
        (cerr w) (files w) (user w).
Definition with_mutex (o : option tid) (w : world) : world :=
  World (log_config w) o (profiling_data w) (steady w) (console_attribute w)
        (cerr w) (files w) (user w).
Definition with_data (d : gmap string Z) (w : world) : world :=
  World (log_config w) (log_mutex w) d (steady w) (console_attribute w)
        (cerr w) (files w) (user w).
Definition with_steady (t : Z) (w : world) : world :=
  World (log_config w) (log_mutex w) (profiling_data w) t (console_attribute w)
        (cerr w) (files w) (user w).
Definition with_attribute (a : Z) (w : world) : world :=
  World (log_config w) (log_mutex w) (profiling_data w) (steady w) a
        (cerr w) (files w) (user w).
Definition with_cerr (out : list string) (w : world) : world :=
  World (log_config w) (log_mutex w) (profiling_data w) (steady w)
        (console_attribute w) out (files w) (user w).
Definition with_files (fs : gmap string (list string)) (w : world) : world :=
  World (log_config w) (log_mutex w) (profiling_data w) (steady w)
        (console_attribute w) (cerr w) fs (user w).
Definition with_user (u : U) (w : world) : world :=
  World (log_config w) (log_mutex w) (profiling_data w) (steady w)
        (console_attribute w) (cerr w) (files w) u.

(** ** Programs

    A member function is a program in continuation-passing style: each
    constructor is one atomic action on the shared state followed by the
    rest of the function.  *)
Inductive prog (R : Type) : Type :=
| Return (r : R)
| Throw (e : exn)
| Terminate                                            (* std::terminate() *)
| Lock (k : prog R)                                    (* lock_guard's constructor *)
| Unlock (k : prog R)                                  (* lock_guard's destructor *)
| Now (k : Z → prog R)                                 (* high_resolution_clock::now() *)
| LocalTime (k : tm → prog R)                          (* system_clock::now(), localtime *)
| GetConfig (k : Config → prog R)                      (* a read of log_config *)
| SetConfig (c : Config) (k : prog R)                  (* log_config = c *)
| MapFind (tag : string) (k : option Z → prog R)       (* profiling_data.find(tag) *)
| MapAssign (tag : string) (t : Z) (k : prog R)        (* profiling_data[tag] = t *)
| MapErase (tag : string) (k : prog R)                 (* profiling_data.erase(tag) *)
| SetConsoleTextAttribute (a : Z) (k : prog R)
| CerrWrite (s : string) (k : prog R)                  (* std::cerr << s << std::flush *)
| FileAppend (name s : string) (k : prog R)            (* ofstream(name, app); if open, write *)
| Call (f : U → result R * U) (k : R → prog R) (h : exn → prog R)
| Async (log_message : string) (level : LogLevel) (k : prog R)
| FutureWait (i : nat) (k : prog R).

Arguments Return {R} r.
Arguments Throw {R} e.
Arguments Terminate {R}.
Arguments Lock {R} k.
Arguments Unlock {R} k.
Arguments Now {R} k.
Arguments LocalTime {R} k.
Arguments GetConfig {R} k.
Arguments SetConfig {R} c k.
Arguments MapFind {R} tag k.
Arguments MapAssign {R} tag t k.
Arguments MapErase {R} tag k.
Arguments SetConsoleTextAttribute {R} a k.
Arguments CerrWrite {R} s k.
Arguments FileAppend {R} name s k.
Arguments Call {R} f k h.
Arguments Async {R} log_message level k.
Arguments FutureWait {R} i k.

(** A function declared [noexcept]: an exception that would leave it calls
    [std::terminate] instead. *)
Fixpoint noexcept {R} (p : prog R) : prog R :=
  match p with
  | Return r => Return r
  | Throw _ => Terminate
  | Terminate => Terminate
  | Lock k => Lock (noexcept k)
  | Unlock k => Unlock (noexcept k)
  | Now k => Now (λ t, noexcept (k t))
  | LocalTime k => LocalTime (λ t, noexcept (k t))
  | GetConfig k => GetConfig (λ c, noexcept (k c))
  | SetConfig c k => SetConfig c (noexcept k)
  | MapFind tag k => MapFind tag (λ o, noexcept (k o))
  | MapAssign tag t k => MapAssign tag t (noexcept k)
  | MapErase tag k => MapErase tag (noexcept k)
  | SetConsoleTextAttribute a k => SetConsoleTextAttribute a (noexcept k)
  | CerrWrite s k => CerrWrite s (noexcept k)
  | FileAppend name s k => FileAppend name s (noexcept k)
  | Call f k h => Call f (λ r, noexcept (k r)) (λ e, noexcept (h e))
  | Async m l k => Async m l (noexcept k)
  | FutureWait i k => FutureWait i (noexcept k)
  end.

(** Continue with the value, or throw what the string operation threw. *)
Definition try_ {A R} (r : result A) (k : A → prog R) : prog R :=
  match r with
  | Ok a => k a
  | Raise e => Throw e
  end.

(** ** The member functions of [Logger] *)


(** [format_message], lines 86-105.  The arguments of each [replace] are
    evaluated before it is called, so [get_log_level_prefix] has set the
    console attribute before the second [replace] can throw. *)
Definition format_message {R} (message : string) (level : LogLevel)
    (location : source_location) (k : string → prog R) : prog R :=
  LocalTime (λ time,
  GetConfig (λ c,
  let formatted_message := log_format c in
  try_ (replace_timestamp formatted_message time) (λ formatted_message,
  SetConsoleTextAttribute (get_log_level_prefix level).1 (
  try_ (replace_rest formatted_message (get_log_level_prefix level).2
          message location) k)))).

Definition WHITE : Z := Z.lor (Z.lor FOREGROUND_RED FOREGROUND_GREEN) FOREGROUND_BLUE.

(** [write_to_console], lines 128-133; [level] is not used. *)
Definition write_to_console {R} (log_message : string) (level : LogLevel)
    (k : prog R) : prog R :=
  Lock (CerrWrite log_message (SetConsoleTextAttribute WHITE (Unlock k))).

(** [write_to_file], lines 135-142. *)
Definition write_to_file {R} (log_message : string) (k : prog R) : prog R :=
  Lock (GetConfig (λ c, FileAppend (log_filename c) log_message (Unlock k))).

(** The lambda [log] hands to [std::async], lines 43-50, with its captures. *)
Definition deliver (log_message : string) (level : LogLevel) : prog unit :=
  GetConfig (λ c,
  (if console_output c then write_to_console log_message level else id) (
  GetConfig (λ c,
  (if file_output c then write_to_file log_message else id) (
  Return tt)))).

(** [log], lines 37-51.  [Async] is the statement of line 43.  With the
    policy [std::launch::async] the task runs on a new thread.  The
    [std::future] that [std::async] returns is a temporary that nobody
    keeps; it is destroyed at the end of the statement, and the destructor
    of the last future that refers to the shared state of a [std::async]
    task blocks until the task has completed (C++ standard, [futures.async]
    and [futures.state]).  So [Async] starts the task and goes on as
    [FutureWait]. *)
Definition log {R} (level : LogLevel) (location : source_location)
    (args : list arg) (k : prog R) : prog R :=
  let message_stream := stream_all args in
  format_message message_stream level location (λ log_message,
  Async log_message level k).

(** [start_profiling], lines 54-57. *)
Definition start_profiling (tag : string) : prog unit :=
  noexcept (
  Lock (
  Now (λ now,
  MapAssign tag now (
  Unlock (
  Return tt))))).

Definition duration_message (tag : string) (duration : Z) : list arg :=
  [text "Execution time for "; text tag; text ": "; number duration;
   text " microseconds"].

(** [end_profiling], lines 59-67.  The [lock_guard] lives until the function
    returns, so [log] is called with [log_mutex] held. *)
Definition end_profiling (tag : string) : prog unit :=
  noexcept (
  Lock (
  Now (λ end_time,
  MapFind tag (λ found,
  match found with
  | Some start =>
      let duration := microseconds start end_time in
      log Debug end_profiling_location (duration_message tag duration) (
      MapErase tag (
      Unlock (
      Return tt)))
  | None =>
      Unlock (
      Return tt)
  end)))).

(** [profile_function], lines 70-78. *)
Definition profile_function {A R} (tag : string) (func : A → U → result R * U)
    (args : A) : prog R :=
  noexcept (
  Now (λ start_time,
  Call (func args) (λ result,
  Now (λ end_time,
  let duration := microseconds start_time end_time in
  log Debug profile_function_location (duration_message tag duration) (
  Return result))) Throw)).

(** ** The machine *)

(** A thread started by [std::async]: the lambda's captures and what is
    left of its body. *)
Record worker : Type := Worker {
  captured_message : string;
  captured_level : LogLevel;
  code : prog unit
}.

Record machine (R : Type) : Type := Machine {
  shared : world;
  caller : prog R;
  pool : list worker
}.
Arguments Machine {R} shared caller pool.
Arguments shared {R} m.
Arguments caller {R} m.
Arguments pool {R} m.

(** Which thread moves, and what the environment answers if it asks: the
    clock's reading, the local time, whether the file can be opened.
    [high_resolution_clock] need not be steady, so a reading may lie before
    an earlier one. *)
Record label : Type := Label {
  who : tid;
  clock_reading : Z;
  local_time : tm;
  open_succeeds : bool
}.

(** A task is over when its function returned or threw (the exception is
    stored in the shared state of the future). *)
Definition finished {R} (p : prog R) : bool :=
  match p with
  | Return _ | Throw _ => true
  | _ => false
  end.

Definition append_chunk (name s : string) (fs : gmap string (list string))
    : gmap string (list string) :=
  <[name := default [] (fs !! name) ++ [s]]> fs.

(** One step of thread [me] running [p]: the new state, the rest of the
    program and the thread it started, if any; [None] when the thread cannot
    move (it is over, waits for the mutex or for a task). *)
Definition thread_step {R} (me : tid) (l : label) (ws : list worker)
    (w : world) (p : prog R) : option (world * prog R * list worker) :=
  match p with
  | Return _ | Throw _ | Terminate => None
  | Lock k =>
      match log_mutex w with
      | None => Some (with_mutex (Some me) w, k, [])
      | Some _ => None
      end
  | Unlock k => Some (with_mutex None w, k, [])
  | Now k => Some (with_steady (clock_reading l) w, k (clock_reading l), [])
  | LocalTime k => Some (w, k (local_time l), [])
  | GetConfig k => Some (w, k (log_config w), [])
  | SetConfig c k => Some (with_config c w, k, [])
  | MapFind tag k => Some (w, k (profiling_data w !! tag), [])
  | MapAssign tag t k => Some (with_data (<[tag := t]> (profiling_data w)) w, k, [])
  | MapErase tag k => Some (with_data (delete tag (profiling_data w)) w, k, [])
  | SetConsoleTextAttribute a k => Some (with_attribute a w, k, [])
  | CerrWrite s k => Some (with_cerr (cerr w ++ [s]) w, k, [])
  | FileAppend name s k =>
      if open_succeeds l
      then Some (with_files (append_chunk name s (files w)) w, k, [])
      else Some (w, k, [])
  | Call f k h =>
      match f (user w) with
      | (Ok r, u) => Some (with_user u w, k r, [])
      | (Raise e, u) => Some (with_user u w, h e, [])
      end
  | Async m lv k =>
      Some (w, FutureWait (length ws) k, [Worker m lv (deliver m lv)])
  | FutureWait i k =>
      match ws !! i with
      | Some t => if finished (code t) then Some (w, k, []) else None
      | None => None
      end
  end.

Definition with_code (p : prog unit) (t : worker) : worker :=
  Worker (captured_message t) (captured_level t) p.

(** One step of the machine.  Once the caller has reached [std::terminate]
    the process is gone and nothing moves. *)
Definition mstep {R} (l : label) (m : machine R) : option (machine R) :=
  match caller m with
  | Terminate => None
  | _ =>
      match who l with
      | Caller =>
          match thread_step Caller l (pool m) (shared m) (caller m) with
          | Some (w, p, new) => Some (Machine w p (pool m ++ new))
          | None => None
          end
      | Async_thread i =>
          match pool m !! i with
          | Some t =>
              match thread_step (Async_thread i) l (pool m) (shared m) (code t) with
              | Some (w, p, new) =>
                  Some (Machine w (caller m) (<[i := with_code p t]> (pool m) ++ new))
              | None => None
              end
          | None => None
          end
      end
  end.

(** Running a schedule; a label whose thread cannot move is skipped. *)
Fixpoint run {R} (sched : list label) (m : machine R) : machine R :=
  match sched with
  | [] => m
  | l :: sched => run sched (default m (mstep l m))
  end.

(** The caller starts an operation with no task in flight. *)
Definition start {R} (w : world) (p : prog R) : machine R := Machine w p [].

End Logger.

Arguments Return {U R} r.
Arguments Throw {U R} e.
Arguments Terminate {U R}.
Arguments Lock {U R} k.
Arguments Unlock {U R} k.
Arguments Now {U R} k.
Arguments LocalTime {U R} k.
Arguments GetConfig {U R} k.
Arguments SetConfig {U R} c k.
Arguments MapFind {U R} tag k.
Arguments MapAssign {U R} tag t k.
Arguments MapErase {U R} tag k.
Arguments SetConsoleTextAttribute {U R} a k.
Arguments CerrWrite {U R} s k.
Arguments FileAppend {U R} name s k.
Arguments Call {U R} f k h.
Arguments Async {U R} log_message level k.
Arguments FutureWait {U R} i k.
Arguments Machine {U R} shared caller pool.
Arguments shared {U R} m.
Arguments caller {U R} m.
Arguments pool {U R} m.

(** ** What a sink has received *)

(** The number of chunks written to the console and to each file. *)
Definition received {U R} (m : machine (U:=U) R) : nat * gmap string nat :=
  (length (cerr (shared m)), length <$> files (shared m)).

(** ** Strings that differ outside the placeholder alphabet *)

Fixpoint occurs (c : ascii) (s : string) : bool :=
  match s with
  | EmptyString => false
  | String d s' => if decide (c = d) then true else occurs c s'
  end.

(** The six placeholder tokens, one after the other. *)
Definition placeholder_chars : string :=
  "%timestamp%%level%%message%%file%%line%%function%".

(** A character no placeholder token contains. *)
Definition inert (c : ascii) : Prop := occurs c placeholder_chars = false.

Fixpoint covered (tok : string) : bool :=
  match tok with
  | EmptyString => true
  | String c tok' => occurs c placeholder_chars && covered tok'
  end.

(** Equal up to inert characters, position by position. *)
Inductive similar : string → string → Prop :=
| similar_nil : similar "" ""
| similar_same c s1 s2 :
    similar s1 s2 → similar (String c s1) (String c s2)
| similar_inert c1 c2 s1 s2 :
    inert c1 → inert c2 → similar s1 s2 → similar (String c1 s1) (String c2 s2).

Definition similar_result (r1 r2 : result string) : Prop :=
  match r1, r2 with
  | Ok s1, Ok s2 => similar s1 s2
  | Raise e1, Raise e2 => e1 = e2
  | _, _ => False
  end.

(** ** Programs with the same control flow

    [same_flow p q]: [p] and [q] perform the same actions in the same order
    and differ at most in the text they write, the console attribute they
    set and the captures of the tasks they start. *)
Inductive same_flow {U R : Type} : prog (U:=U) R → prog (U:=U) R → Prop :=
| sf_Return r : same_flow (Return r) (Return r)
| sf_Throw e : same_flow (Throw e) (Throw e)
| sf_Terminate : same_flow Terminate Terminate
| sf_Lock k1 k2 : same_flow k1 k2 → same_flow (Lock k1) (Lock k2)
| sf_Unlock k1 k2 : same_flow k1 k2 → same_flow (Unlock k1) (Unlock k2)
| sf_Now k1 k2 : (∀ t, same_flow (k1 t) (k2 t)) → same_flow (Now k1) (Now k2)
| sf_LocalTime k1 k2 :
    (∀ t, same_flow (k1 t) (k2 t)) → same_flow (LocalTime k1) (LocalTime k2)
| sf_GetConfig k1 k2 :
    (∀ c, same_flow (k1 c) (k2 c)) → same_flow (GetConfig k1) (GetConfig k2)
| sf_SetConfig c k1 k2 :
    same_flow k1 k2 → same_flow (SetConfig c k1) (SetConfig c k2)
| sf_MapFind tag k1 k2 :
    (∀ o, same_flow (k1 o) (k2 o)) → same_flow (MapFind tag k1) (MapFind tag k2)
| sf_MapAssign tag t k1 k2 :
    same_flow k1 k2 → same_flow (MapAssign tag t k1) (MapAssign tag t k2)
| sf_MapErase tag k1 k2 :
    same_flow k1 k2 → same_flow (MapErase tag k1) (MapErase tag k2)
| sf_SetConsoleTextAttribute a1 a2 k1 k2 :
    same_flow k1 k2 →
    same_flow (SetConsoleTextAttribute a1 k1) (SetConsoleTextAttribute a2 k2)
| sf_CerrWrite s1 s2 k1 k2 :
    same_flow k1 k2 → same_flow (CerrWrite s1 k1) (CerrWrite s2 k2)
| sf_FileAppend name s1 s2 k1 k2 :
    same_flow k1 k2 → same_flow (FileAppend name s1 k1) (FileAppend name s2 k2)
| sf_Call f k1 k2 h1 h2 :
    (∀ r, same_flow (k1 r) (k2 r)) → (∀ e, same_flow (h1 e) (h2 e)) →
    same_flow (Call f k1 h1) (Call f k2 h2)
| sf_Async m1 m2 l1 l2 k1 k2 :
    same_flow k1 k2 → same_flow (Async m1 l1 k1) (Async m2 l2 k2)
| sf_FutureWait i k1 k2 :
    same_flow k1 k2 → same_flow (FutureWait i k1) (FutureWait i k2).

(** Worlds that agree on everything but the console attribute and the
    text of what the sinks received. *)
Definition same_world {U} (w1 w2 : world (U:=U)) : Prop :=
  log_config w1 = log_config w2 ∧ log_mutex w1 = log_mutex w2 ∧
  profiling_data w1 = profiling_data w2 ∧ steady w1 = steady w2 ∧
  length (cerr w1) = length (cerr w2) ∧
  length <$> files w1 = length <$> files w2 ∧
  user w1 = user w2.

Definition same_machine {U R} (m1 m2 : machine (U:=U) R) : Prop :=
  same_world (shared m1) (shared m2) ∧
  same_flow (caller m1) (caller m2) ∧
  Forall2 (λ t1 t2, same_flow (code t1) (code t2)) (pool m1) (pool m2).

(** ** Labels used to exhibit runs *)

Definition epoch : tm :=
  {| tm_year := 70; tm_mon := 0; tm_mday := 1; tm_hour := 0; tm_min := 0; tm_sec := 0 |}.

(** The caller moves, or the first task does; the environment answers
    with clock reading [t] and local time [time], and files open. *)
Definition caller_moves (t : Z) (time : tm) : label := Label Caller t time true.
Definition task_moves (t : Z) (time : tm) : label := Label (Async_thread 0) t time true.

(** The labels of a schedule at which the calling thread is the one to
    move, in order. *)
Fixpoint caller_labels (sched : list label) : list label :=
  match sched with
  | [] => []
  | l :: sched =>
      match who l with
      | Caller => l :: caller_labels sched
      | Async_thread _ => caller_labels sched
      end
  end.

(** ** Predicates *)

(** Some schedule leads from [m] to a machine that satisfies [P]. *)
Definition reaches {U R} (m : machine (U:=U) R) (P : machine R → Prop) : Prop :=
  ∃ sched, P (run sched m).

(** The file can be opened whenever a thread tries. *)
Definition files_open (sched : list label) : Prop :=
  Forall (λ l, open_succeeds l = true) sched.

(** The record a task carries is a Debug record rendered with the template
    in force and the given location. *)
Definition duration_record {U} (w : world (U:=U)) (tag : string)
    (location : source_location) (t : worker (U:=U)) : Prop :=
  captured_level t = Debug ∧
  ∃ time duration,
    render (log_format (log_config w)) time
      (stream_all (duration_message tag duration)) Debug location
    = Ok (captured_message t).

(** The call is over: it returned or the process was terminated. *)
Definition over {U R} (p : prog (U:=U) R) : Prop :=
  match p with
  | Return _ | Terminate => True
  | _ => False
  end.

(** What holds of every machine reachable from a call of
    [profile_function] whose callable, run once on the user's state, has
    outcome [outcome]: the user's state is the old one or the callable's;
    it is the callable's once the call is over; the caller never throws; it
    returns nothing but the callable's value, after the task has delivered
    the record; and when the callable threw there is no return, no task and
    nothing written. *)
Definition profiled_once {U R} (w : world (U:=U)) (tag : string)
    (outcome : result R * U) (m : machine (U:=U) R) : Prop :=
  (user (shared m) = user w ∨ user (shared m) = outcome.2) ∧
  (over (caller m) → user (shared m) = outcome.2) ∧
  (∀ e, caller m ≠ Throw e) ∧
  (∀ r, caller m = Return r →
     outcome.1 = Ok r ∧
     ∃ log_message, pool m = [Worker log_message Debug (Return tt)] ∧
       cerr (shared m) =
         cerr w ++ (if console_output (log_config w) then [log_message] else [])) ∧
  (∀ e, outcome.1 = Raise e →
     (∀ r, caller m ≠ Return r) ∧ pool m = [] ∧
     cerr (shared m) = cerr w ∧ files (shared m) = files w).

(** ** Concrete inputs *)

(** The configuration of the usage example: the template has no
    [%function%]. *)
Definition readme_config : Config := {|
  console_output := true;
  file_output := true;
  remote_logging := false;
  log_format := "[%timestamp%] %level% %message% [File: %file% | Line: %line%]";
  log_filename := "my_log.txt"
|}.

(** 2024-01-02 03:04:05, local time. *)
Definition a_time : tm :=
  {| tm_year := 124; tm_mon := 0; tm_mday := 2; tm_hour := 3; tm_min := 4; tm_sec := 5 |}.

Definition a_call_site : source_location :=
  {| file_name := "a.cpp"; line := 42; function_name := "main" |}.

(** A fresh process: nothing registered, nothing written, mutex free. *)
Definition fresh (config : Config) : world (U:=unit) :=
  World config None ∅ 0 WHITE [] ∅ tt.

(** The caller formats and starts the task, the task runs to its end, the
    caller comes back. *)
Definition log_schedule : list label :=
  replicate 4 (caller_moves 0 a_time) ++ replicate 10 (task_moves 0 a_time) ++
  [caller_moves 0 a_time].

(** The header as included by its own name, the member functions by
    theirs. *)
Definition end_profiling_here : string → prog (U:=unit) unit :=
  end_profiling "logger.hpp" "end_profiling".
Definition profile_function_here {A R} :
    string → (A → unit → result R * unit) → A → prog (U:=unit) R :=
  profile_function "logger.hpp" "profile_function".

(** A process in which tag "T" was started at clock reading 1000. *)
Definition profiling (config : Config) : world (U:=unit) :=
  World config None {["T" := 1000]} 1000 WHITE [] ∅ tt.

(** 100 ms later the caller ends the timer; every thread gets its turns. *)
Definition end_schedule : list label :=
  replicate 8 (caller_moves 100001000 a_time) ++
  replicate 10 (task_moves 100001000 a_time) ++
  replicate 4 (caller_moves 100001000 a_time).

(** The tag "T" is started again at clock reading 5000. *)
Definition restart_schedule : list label := replicate 4 (caller_moves 5000 a_time).

(** A callable that adds one to its argument, and one that throws. *)
Definition successor (n : nat) (u : unit) : result nat * unit := (Ok (S n), u).
Definition thrower (n : nat) (u : unit) : result nat * unit :=
  (Raise (user_error "boom"), u).

(** The callable takes 150 ms. *)
Definition profile_schedule : list label :=
  replicate 2 (caller_moves 0 a_time) ++
  replicate 5 (caller_moves 150000000 a_time) ++
  replicate 10 (task_moves 150000000 a_time) ++
  [caller_moves 150000000 a_time].

(** The clock goes back while the callable runs: 10000 before, 5500
    after. *)
Definition backward_schedule : list label :=
  replicate 2 (caller_moves 10000 a_time) ++
  replicate 5 (caller_moves 5500 a_time) ++
  replicate 10 (task_moves 5500 a_time) ++
  [caller_moves 5500 a_time].

(** A template that starts with the level. *)
Definition short_config : Config := {|
  console_output := true;
  file_output := false;
  remote_logging := false;
  log_format := "%level% %message%";
  log_filename := "error_log.txt"
|}.

(** A process whose sinks are both off, so that [end_profiling] gets as far
    as starting its task and beyond. *)
Definition quiet_config : Config := {|
  console_output := false;
  file_output := false;
  remote_logging := false;
  log_format := log_format default_config;
  log_filename := log_filename default_config
|}.

(** ** Further predicates *)

(** What has been written to the file [name]; nothing if there is no such
    file. *)
Definition chunks {U} (name : string) (w : world (U:=U)) : list string :=
  default [] (files w !! name).

(** One substitution of lines 97-101: the value [v] for the [count]
    characters at the first occurrence of [tok]. *)
Definition substitute (tok : string) (count : N) (v s : string) : result string :=
  replace s (find s tok) count v.

(** The tokens of lines 97-101 with the counts written there. *)
Definition later_placeholders : list (string * N) :=
  [("%level%", 7%N); ("%message%", 9%N); ("%file%", 6%N); ("%line%", 6%N);
   ("%function%", 10%N)].

(** The caller has left the call, with a value or an exception. *)
Definition left_call {U R} (p : prog (U:=U) R) : Prop :=
  match p with
  | Return _ | Throw _ => True
  | _ => False
  end.

(** The turns of [log_schedule], with a log file that cannot be opened. *)
Definition closed_file_schedule : list label :=
  replicate 4 (Label Caller 0 a_time false) ++
  replicate 10 (Label (Async_thread 0) 0 a_time false) ++
  [Label Caller 0 a_time false].

(** Both sinks enabled, the default template. *)
Definition both_sinks_config : Config := {|
  console_output := true;
  file_output := true;
  remote_logging := false;
  log_format := log_format default_config;
  log_filename := log_filename default_config
|}.

(** What holds of every machine reachable from a call of [log] in world
    [w]: the configuration, the registry, the user's state and the clock
    reading are those of [w]; once the call has returned the mutex is as it
    was, the record has gone to the enabled sinks (the file if it could be
    opened) and the console attribute is white if the console sink ran, the
    colour of the level if not; if the call has thrown it threw
    [std::out_of_range], the mutex is as it was, no task was started, nothing
    was written and the console attribute is the old one or the colour of
    the level. *)
Definition log_effect {U} (w : world (U:=U)) (level : LogLevel)
    (location : source_location) (args : list arg)
    (m : machine (U:=U) unit) : Prop :=
  log_config (shared m) = log_config w ∧
  profiling_data (shared m) = profiling_data w ∧
  user (shared m) = user w ∧
  steady (shared m) = steady w ∧
  (caller m = Return tt →
   log_mutex (shared m) = log_mutex w ∧
   ∃ time log_message opened,
     render (log_format (log_config w)) time (stream_all args) level location
       = Ok log_message ∧
     cerr (shared m) =
       cerr w ++ (if console_output (log_config w) then [log_message] else []) ∧
     files (shared m) =
       (if file_output (log_config w) && opened
        then append_chunk (log_filename (log_config w)) log_message (files w)
        else files w) ∧
     console_attribute (shared m) =
       if console_output (log_config w) then WHITE
       else (get_log_level_prefix level).1) ∧
  (∀ e, caller m = Throw e →
   e = out_of_range ∧ log_mutex (shared m) = log_mutex w ∧ pool m = [] ∧
   cerr (shared m) = cerr w ∧ files (shared m) = files w ∧
   (console_attribute (shared m) = console_attribute w ∨
    console_attribute (shared m) = (get_log_level_prefix level).1)).

(** * Properties *)

(** ** Strings *)

Lemma append_cons c s1 s2 : String c s1 +:+ s2 = String c (s1 +:+ s2).
Proof. reflexivity. Qed.

Lemma similar_refl s : similar s s.
Proof. induction s; constructor; done. Qed.

Lemma similar_length s1 s2 : similar s1 s2 → String.length s1 = String.length s2.
Proof. induction 1; simpl; congruence. Qed.

Lemma similar_app s1 s2 t1 t2 :
  similar s1 s2 → similar t1 t2 → similar (s1 +:+ t1) (s2 +:+ t2).
Proof.
  intros Hs Ht. induction Hs; rewrite ?append_cons; try done; constructor; done.
Qed.

Lemma similar_take n s1 s2 : similar s1 s2 → similar (take n s1) (take n s2).
Proof.
  intros Hs. revert n. induction Hs; intros [|n]; simpl; constructor; auto.
Qed.

Lemma similar_drop n s1 s2 : similar s1 s2 → similar (drop n s1) (drop n s2).
Proof.
  intros Hs. revert n. induction Hs; intros [|n]; simpl; auto; constructor; auto.
Qed.

Lemma covered_not_inert t tok c :
  covered (String t tok) = true → inert c → t ≠ c.
Proof.
  cbn [covered]. intros [Ht _]%andb_prop Hc ->. unfold inert in Hc. congruence.
Qed.

(** A placeholder token starts both strings or neither. *)
Lemma similar_starts_with tok s1 s2 :
  covered tok = true → similar s1 s2 → starts_with tok s1 = starts_with tok s2.
Proof.
  intros Hcov Hs. revert tok Hcov.
  induction Hs as [|c s1 s2 Hs IH|c1 c2 s1 s2 H1 H2 Hs IH];
    intros [|t tok] Hcov; simpl; try done.
  - case_decide; [|done]. apply IH.
    cbn [covered] in Hcov. by apply andb_prop in Hcov as [_ ?].
  - pose proof (covered_not_inert _ _ _ Hcov H1).
    pose proof (covered_not_inert _ _ _ Hcov H2).
    by repeat case_decide.
Qed.

Lemma similar_find_nat tok s1 s2 :
  covered tok = true → similar s1 s2 → find_nat s1 tok = find_nat s2 tok.
Proof.
  intros Hcov Hs. induction Hs as [|c s1 s2 Hs IH|c1 c2 s1 s2 H1 H2 Hs IH].
  - done.
  - simpl find_nat.
    rewrite (similar_starts_with tok (String c s1) (String c s2)) by (done || by constructor).
    by rewrite IH.
  - simpl find_nat.
    rewrite (similar_starts_with tok (String c1 s1) (String c2 s2)) by (done || by constructor).
    by rewrite IH.
Qed.

Lemma similar_find tok s1 s2 :
  covered tok = true → similar s1 s2 → find s1 tok = find s2 tok.
Proof. intros ??. unfold find. by erewrite similar_find_nat. Qed.

Lemma similar_replace s1 s2 pos count v1 v2 :
  similar s1 s2 → similar v1 v2 →
  similar_result (replace s1 pos count v1) (replace s2 pos count v2).
Proof.
  intros Hs Hv. unfold replace. rewrite (similar_length _ _ Hs).
  case_match; simpl; [done|].
  auto using similar_app, similar_take, similar_drop.
Qed.

(** Substituting a placeholder keeps two strings similar. *)
Lemma similar_replace_first tok s1 s2 count v :
  covered tok = true → similar s1 s2 →
  similar_result (replace s1 (find s1 tok) count v) (replace s2 (find s2 tok) count v).
Proof.
  intros Hcov Hs. rewrite (similar_find tok s1 s2) by done.
  apply similar_replace; [done|apply similar_refl].
Qed.

(** The five prefixes are an opening bracket, one inert character and a
    closing bracket. *)
Lemma prefix_shape (level : LogLevel) :
  ∃ c, inert c ∧ (get_log_level_prefix level).2 = String "["%char (String c "]").
Proof.
  destruct level as [|[[?|?|]|[?|?|]|]|?]; simpl; eexists; split; try reflexivity;
    reflexivity.
Qed.

Lemma similar_prefix (level1 level2 : LogLevel) :
  similar (get_log_level_prefix level1).2 (get_log_level_prefix level2).2.
Proof.
  destruct (prefix_shape level1) as (c1 & H1 & ->).
  destruct (prefix_shape level2) as (c2 & H2 & ->).
  apply similar_same, similar_inert, similar_refl; done.
Qed.

(** The substitutions after the prefix's succeed or fail together. *)
Lemma similar_replace_rest m prefix1 prefix2 message location :
  similar prefix1 prefix2 →
  similar_result (replace_rest m prefix1 message location)
                 (replace_rest m prefix2 message location).
Proof.
  intros Hp. unfold replace_rest.
  pose proof (similar_replace m m (find m "%level%") 7 prefix1 prefix2
                (similar_refl m) Hp) as H.
  destruct (replace m _ 7 prefix1) as [a1|], (replace m _ 7 prefix2) as [a2|];
    simpl in *; try done.
  pose proof (similar_replace_first "%message%" a1 a2 9 message eq_refl H) as H'.
  clear H. destruct (replace a1 _ 9 _) as [b1|], (replace a2 _ 9 _) as [b2|];
    simpl in *; try done.
  pose proof (similar_replace_first "%file%" b1 b2 6 (file_name location) eq_refl H') as H.
  clear H'. destruct (replace b1 _ 6 _) as [c1|], (replace b2 _ 6 _) as [c2|];
    simpl in *; try done.
  pose proof (similar_replace_first "%line%" c1 c2 6 (pretty (line location)) eq_refl H) as H'.
  clear H. destruct (replace c1 _ 6 _) as [d1|], (replace c2 _ 6 _) as [d2|];
    simpl in *; try done.
  apply (similar_replace_first "%function%"); done.
Qed.

(** ** Where a token is found *)

Lemma drop_drop n k s : drop n (drop k s) = drop (k + n) s.
Proof.
  revert s. induction k as [|k IH]; intros s; [done|].
  destruct s as [|c s]; simpl; [by destruct n|]. apply IH.
Qed.

Lemma starts_with_split tok s :
  starts_with tok s = true → s = tok +:+ drop (String.length tok) s.
Proof.
  revert s. induction tok as [|t tok IH]; intros [|c s]; simpl; try done.
  case_decide; [|done]. subst. intros H. rewrite append_cons. f_equal. by apply IH.
Qed.

Lemma find_nat_Some s tok i :
  find_nat s tok = Some i →
  starts_with tok (drop i s) = true ∧ (i ≤ String.length s)%nat.
Proof.
  revert i. induction s as [|c s IH]; intros i; simpl.
  - destruct (starts_with tok "") eqn:E; [|done].
    intros [= <-]. split; [done|lia].
  - destruct (starts_with tok (String c s)) eqn:E.
    + intros [= <-]. split; [done|lia].
    + destruct (find_nat s tok) as [j|]; [|done]. simpl. intros [= <-].
      destruct (IH j eq_refl). split; [done|lia].
Qed.

Lemma find_nat_None_find s tok : find_nat s tok = None → find s tok = npos.
Proof. unfold find. by intros ->. Qed.

(** X2.  Whenever the template contains [%timestamp%], line 96 leaves the
    token's closing [%] in the string, right after the timestamp. *)
Theorem replace_timestamp_leaves_percent (template : string) (time : tm) (i : nat) :
  find_nat template "%timestamp%" = Some i →
  replace_timestamp template time =
    Ok (take i template +:+ put_time time +:+ "%" +:+ drop (i + 11) template).
Proof.
  intros Hfind. destruct (find_nat_Some _ _ _ Hfind) as [Hstart Hlen].
  unfold replace_timestamp, find, replace. rewrite Hfind.
  destruct (N.ltb_spec (N.of_nat (String.length template)) (N.of_nat i)); [lia|].
  rewrite Nat2N.id. change (N.to_nat 10) with 10%nat.
  apply starts_with_split in Hstart.
  rewrite <-!drop_drop. rewrite Hstart at 1. simpl String.length.
  do 3 f_equal.
Qed.

(** ** Substituting the first occurrence *)

Lemma take_drop n s : take n s +:+ drop n s = s.
Proof.
  revert s. induction n as [|n IH]; intros [|c s]; simpl; try done.
  rewrite append_cons. by rewrite IH.
Qed.

Lemma starts_with_length tok s :
  starts_with tok s = true → (String.length tok ≤ String.length s)%nat.
Proof.
  revert s. induction tok as [|t tok IH]; intros [|c s]; simpl; try done; [lia|].
  case_decide; [|done]. intros Hs%IH. lia.
Qed.

Lemma drop_length n s : String.length (drop n s) = (String.length s - n)%nat.
Proof. revert s. induction n as [|n IH]; intros [|c s]; simpl; auto. Qed.

Lemma find_nat_first s tok i j :
  find_nat s tok = Some i → (j < i)%nat → starts_with tok (drop j s) = false.
Proof.
  revert i j. induction s as [|c s IH]; intros i j; simpl.
  - destruct (starts_with tok ""); [|done]. intros [= <-]. lia.
  - destruct (starts_with tok (String c s)) eqn:E; [intros [= <-]; lia|].
    destruct (find_nat s tok) as [i'|] eqn:E'; [|done]. simpl. intros [= <-] Hj.
    destruct j as [|j]; [done|]. simpl. apply (IH i'); [done|lia].
Qed.

(** X13.  Lines 97-101 are five substitutions, of the level, message, file,
    line and function tokens in this order, each replacing as many characters
    as its token has.  Such a substitution, when the token occurs in the
    string at hand, replaces the first occurrence and nothing else: the text
    before it holds no occurrence, and the text after it, further
    occurrences of the token included, is kept as it is. *)
Theorem later_placeholders_replace_first_occurrence :
  (∀ m pfx message location,
     replace_rest m pfx message location =
       foldl (λ r '(tok, count, v), r ≫= substitute tok count v) (Ok m)
         (zip later_placeholders
            [pfx; message; file_name location; pretty (line location);
             function_name location])) ∧
  ∀ tok count s v i,
    (tok, count) ∈ later_placeholders →
    find_nat s tok = Some i →
    count = N.of_nat (String.length tok) ∧
    s = take i s +:+ tok +:+ drop (i + String.length tok) s ∧
    (∀ j, (j < i)%nat → starts_with tok (drop j s) = false) ∧
    substitute tok count v s =
      Ok (take i s +:+ v +:+ drop (i + String.length tok) s).
Proof.
  split.
  { intros m pfx message location. unfold replace_rest, substitute. simpl.
    destruct (replace m _ 7 pfx) as [a|]; [|done]. simpl.
    destruct (replace a _ 9 message) as [b|]; [|done]. simpl.
    destruct (replace b _ 6 _) as [c|]; [|done]. simpl.
    by destruct (replace c _ 6 _) as [d|]. }
  intros tok count s v i Hin Hfind.
  assert (Hcount : count = N.of_nat (String.length tok)).
  { unfold later_placeholders in Hin.
    repeat (apply elem_of_cons in Hin as [[= -> ->]|Hin]; [done|]).
    by apply elem_of_nil in Hin. }
  destruct (find_nat_Some _ _ _ Hfind) as [Hstart Hlen].
  split; [done|]. split; [|split].
  - rewrite <-drop_drop. rewrite <-(starts_with_split _ _ Hstart).
    by rewrite take_drop.
  - intros j Hj. by eapply find_nat_first.
  - unfold substitute, find, replace. rewrite Hfind, Hcount.
    destruct (N.ltb_spec (N.of_nat (String.length s)) (N.of_nat i)); [lia|].
    by rewrite !Nat2N.id.
Qed.

(** ** Programs with the same control flow run in lockstep *)

Section Lockstep.
Context {U : Type}.

Lemma same_flow_refl {R} (p : prog (U:=U) R) : same_flow p p.
Proof. induction p; constructor; auto. Qed.

Lemma same_flow_finished {R} (p q : prog (U:=U) R) :
  same_flow p q → finished p = finished q.
Proof. by destruct 1. Qed.

(** What the task does never depends on its captures. *)
Lemma same_flow_deliver m1 l1 m2 l2 :
  same_flow (U:=U) (deliver m1 l1) (deliver m2 l2).
Proof.
  unfold deliver, write_to_console, write_to_file.
  constructor; intros c. destruct (console_output c); simpl;
    repeat (constructor; try intros c');
    destruct (file_output c'); simpl; repeat (constructor; try intros ?).
Qed.

(** Two calls of [log] that differ in the level only. *)
Lemma same_flow_log {R} level1 level2 location args (k1 k2 : prog (U:=U) R) :
  same_flow k1 k2 →
  same_flow (log level1 location args k1) (log level2 location args k2).
Proof.
  intros Hk. unfold log, format_message.
  constructor; intros time. constructor; intros c.
  destruct (replace_timestamp (log_format c) time) as [m|e]; simpl;
    [|constructor].
  constructor.
  pose proof (similar_replace_rest m _ _ (stream_all args) location
                (similar_prefix level1 level2)) as H.
  destruct (replace_rest m (get_log_level_prefix level1).2 _ _),
           (replace_rest m (get_log_level_prefix level2).2 _ _);
    simpl in *; try done.
  - by constructor.
  - subst. constructor.
Qed.

Abbreviation same_pool := (Forall2 (λ t1 t2 : worker (U:=U), same_flow (code t1) (code t2))).

Lemma same_world_files name s1 s2 (w1 w2 : world (U:=U)) :
  same_world w1 w2 →
  same_world (with_files (append_chunk name s1 (files w1)) w1)
             (with_files (append_chunk name s2 (files w2)) w2).
Proof.
  intros (?&?&?&?&?&Hf&?). repeat split; simpl; try done.
  unfold append_chunk. rewrite !fmap_insert, !length_app. simpl. f_equal; [|done].
  f_equal. apply (f_equal (λ m, m !! name)) in Hf. rewrite !lookup_fmap in Hf.
  destruct (files w1 !! name), (files w2 !! name); simpl in *; congruence.
Qed.

Lemma thread_step_same_flow {R} me l ws1 ws2 (w1 w2 : world (U:=U)) (p1 p2 : prog R) :
  same_world w1 w2 → same_flow p1 p2 → same_pool ws1 ws2 →
  match thread_step me l ws1 w1 p1, thread_step me l ws2 w2 p2 with
  | Some (w1', p1', new1), Some (w2', p2', new2) =>
      same_world w1' w2' ∧ same_flow p1' p2' ∧ same_pool new1 new2
  | None, None => True
  | _, _ => False
  end.
Proof.
  intros Hw Hp Hws. pose proof Hw as (Hc&Hm&Hd&Hs&Hout&Hf&Hu).
  destruct Hp; simpl; try done.
  - rewrite Hm. destruct (log_mutex w2); [done|]. by repeat split.
  - rewrite Hc. by repeat split.
  - rewrite Hd. by repeat split.
  - repeat split; simpl; try done. by rewrite Hd.
  - repeat split; simpl; try done. by rewrite Hd.
  - repeat split; simpl; try done. rewrite !length_app. simpl. lia.
  - destruct (open_succeeds l); repeat split; try done.
    all: by apply same_world_files.
  - rewrite Hu. destruct (f (user w2)) as [[r|e] u]; by repeat split.
  - rewrite (Forall2_length _ _ _ Hws). split; [done|]. split; [by constructor|].
    constructor; [apply same_flow_deliver|constructor].
  - destruct (ws1 !! i) as [t1|] eqn:E1, (ws2 !! i) as [t2|] eqn:E2.
    + rewrite (same_flow_finished (code t1) (code t2))
        by exact (Forall2_lookup_lr _ _ _ _ _ _ Hws E1 E2).
      destruct (finished (code t2)); by repeat split.
    + apply lookup_lt_Some in E1. apply lookup_ge_None in E2.
      apply Forall2_length in Hws. lia.
    + apply lookup_lt_Some in E2. apply lookup_ge_None in E1.
      apply Forall2_length in Hws. lia.
    + done.
Qed.

Lemma mstep_same_machine {R} l (m1 m2 : machine (U:=U) R) :
  same_machine m1 m2 →
  match mstep l m1, mstep l m2 with
  | Some m1', Some m2' => same_machine m1' m2'
  | None, None => True
  | _, _ => False
  end.
Proof.
  destruct m1 as [w1 p1 ws1], m2 as [w2 p2 ws2].
  intros (Hw & Hp & Hws); simpl in *. unfold mstep; simpl.
  destruct (who l) as [|i].
  - pose proof (thread_step_same_flow Caller l ws1 ws2 w1 w2 p1 p2 Hw Hp Hws) as H.
    destruct (thread_step Caller l ws1 w1 p1) as [[[w1' p1'] n1]|],
             (thread_step Caller l ws2 w2 p2) as [[[w2' p2'] n2]|];
      try done; [|by destruct Hp].
    destruct H as (?&?&?).
    destruct Hp; try done; (split; [done|split; [done|by apply Forall2_app]]).
  - destruct (ws1 !! i) as [t1|] eqn:E1, (ws2 !! i) as [t2|] eqn:E2.
    + assert (Ht : same_flow (code t1) (code t2))
        by exact (Forall2_lookup_lr _ _ _ _ _ _ Hws E1 E2).
      pose proof (thread_step_same_flow (Async_thread i) l ws1 ws2 w1 w2
                    (code t1) (code t2) Hw Ht Hws) as H.
      destruct (thread_step (Async_thread i) l ws1 w1 (code t1)) as [[[w1' q1] n1]|],
               (thread_step (Async_thread i) l ws2 w2 (code t2)) as [[[w2' q2] n2]|];
        try done; [|by destruct Hp].
      destruct H as (?&?&?).
      destruct Hp; try done; (split; [done|split; [simpl; by constructor|]]);
        apply Forall2_app; try done; by apply Forall2_insert.
    + apply lookup_lt_Some in E1. apply lookup_ge_None in E2.
      apply Forall2_length in Hws. lia.
    + apply lookup_lt_Some in E2. apply lookup_ge_None in E1.
      apply Forall2_length in Hws. lia.
    + by destruct Hp.
Qed.

Lemma run_same_machine {R} sched (m1 m2 : machine (U:=U) R) :
  same_machine m1 m2 → same_machine (run sched m1) (run sched m2).
Proof.
  revert m1 m2. induction sched as [|l sched IH]; intros m1 m2 H; [done|].
  simpl. pose proof (mstep_same_machine l m1 m2 H) as Hs.
  destruct (mstep l m1), (mstep l m2); simpl; try done; by apply IH.
Qed.

Lemma same_machine_received {R} (m1 m2 : machine (U:=U) R) :
  same_machine m1 m2 → received m1 = received m2.
Proof. intros ((?&?&?&?&?&?&?)&_). unfold received. congruence. Qed.

End Lockstep.

(** ** The level prefix *)

(** C8.  The prefix [get_log_level_prefix] returns is "[+]" for Info, "[!]"
    for Warning, "[-]" for Error, "[*]" for Debug and "[?]" for every other
    value of the enumeration's underlying type. *)
Theorem level_prefix_mapping (level : LogLevel) :
  (get_log_level_prefix level).2 =
    if decide (level = Info) then "[+]"
    else if decide (level = Warning) then "[!]"
    else if decide (level = Error) then "[-]"
    else if decide (level = Debug) then "[*]"
    else "[?]".
Proof.
  unfold Info, Warning, Error, Debug.
  destruct level as [|[[?|?|]|[?|?|]|]|?]; simpl; repeat case_decide; done.
Qed.

(** ** Running a program through every schedule *)

Section Properties.
Context {U : Type}.
Variables header_file end_profiling_name profile_function_name : string.

(** A property of every reachable machine: it holds now and after every
    step that can be taken. *)
Lemma run_always {R} (P : machine (U:=U) R → Prop) (m : machine R) :
  P m →
  (∀ l m', mstep l m = Some m' → ∀ sched, P (run sched m')) →
  ∀ sched, P (run sched m).
Proof.
  intros HP Hstep sched. induction sched as [|l sched IH]; simpl; [done|].
  destruct (mstep l m) eqn:E; simpl; eauto.
Qed.

(** The same, for schedules whose labels all satisfy [L]. *)
Lemma run_always_when {R} (L : label → Prop) (P : machine (U:=U) R → Prop)
    (m : machine R) :
  P m →
  (∀ l m', L l → mstep l m = Some m' → ∀ sched, Forall L sched → P (run sched m')) →
  ∀ sched, Forall L sched → P (run sched m).
Proof.
  intros HP Hstep sched HL. induction HL as [|l sched Hl HL IH]; simpl; [done|].
  destruct (mstep l m) eqn:E; simpl; eauto.
Qed.

(** A machine in which no thread can move stays as it is. *)
Lemma run_stuck {R} (m : machine (U:=U) R) sched :
  (∀ l, mstep l m = None) → run sched m = m.
Proof.
  intros H. induction sched as [|l sched IH]; simpl; [done|]. by rewrite H.
Qed.

(** While no task is in flight, the labels of the tasks are skipped: the
    run is the step at the caller's first label followed by the run of what
    comes after it. *)
Lemma run_to_caller {R} sched (m : machine (U:=U) R) :
  pool m = [] →
  (caller_labels sched = [] ∧ run sched m = m) ∨
  ∃ t time o post,
    caller_labels sched = Label Caller t time o :: caller_labels post ∧
    run sched m = run post (default m (mstep (Label Caller t time o) m)).
Proof.
  intros Hp. induction sched as [|[[|i] t time o] sched IH]; simpl.
  - by left.
  - right. by exists t, time, o, sched.
  - assert (mstep (Label (Async_thread i) t time o) m = None) as ->; [|done].
    unfold mstep. simpl. rewrite Hp, lookup_nil. by destruct (caller m).
Qed.

Lemma reaches_here {R} (m : machine (U:=U) R) (P : machine R → Prop) :
  P m → reaches m P.
Proof. by exists []. Qed.

Lemma reaches_step {R} l (m m' : machine (U:=U) R) (P : machine R → Prop) :
  mstep l m = Some m' → reaches m' P → reaches m P.
Proof. intros Hs [sched H]. exists (l :: sched). simpl. by rewrite Hs. Qed.

Lemma reaches_run {R} (m : machine (U:=U) R) (P : machine R → Prop) :
  reaches m P → ∃ sched, P (run sched m).
Proof. done. Qed.

Ltac expose :=
  cbn;
  repeat match goal with
  | |- context [try_ ?r _] => let E := fresh "E" in destruct r eqn:E; cbn
  end.

(** Normalise the state after a step. *)
Ltac tidy :=
  cbv beta iota delta
    [with_code with_mutex with_config with_data with_steady with_attribute
     with_cerr with_files with_user captured_message captured_level code
     log_config log_mutex profiling_data steady console_attribute cerr files
     user].

(** Take the step labelled [l]. *)
Ltac use_equations :=
  repeat match goal with
  | H : ?x = _ |- context [match ?x with _ => _ end] => rewrite H; cbn
  | H : ?x = _ |- context [try_ ?x _] => rewrite H; cbn
  end.

Ltac step_with l :=
  use_equations;
  eapply (reaches_step l);
  [ cbn; repeat (case_decide; [|lia]); use_equations; reflexivity | tidy ].

(** One step of symbolic execution: [tac] proves the property of the
    machine at hand, then every label is tried. *)
Ltac forward P tac :=
  expose;
  (apply (run_always P);
   [ solve [tac]
   | let Hs := fresh "Hs" in
     intros [[|[|?]] ? ? ?] ? Hs; cbn in Hs;
     repeat case_match; simplify_eq; try done; tidy ]).

Ltac forward_when L P tac :=
  expose;
  (apply (run_always_when L P);
   [ solve [tac]
   | let Hs := fresh "Hs" in
     let HL := fresh "HL" in
     intros [[|[|?]] ? ? ?] ? HL Hs; cbn in HL, Hs;
     repeat case_match; simplify_eq; try done; tidy ]).

Lemma render_ok template time message level location m log_message :
  replace_timestamp template time = Ok m →
  replace_rest m (get_log_level_prefix level).2 message location = Ok log_message →
  render template time message level location = Ok log_message.
Proof. unfold render. intros -> ?. done. Qed.

(** When [log] has returned, the task has run to its end and the sinks
    have received the record. *)
Lemma log_returned (w : world (U:=U)) level location args sched :
  let m := run sched (start w (log level location args (Return tt))) in
  caller m = Return tt →
  ∃ time log_message,
    render (log_format (log_config w)) time (stream_all args) level location
      = Ok log_message ∧
    pool m = [Worker log_message level (Return tt)] ∧
    cerr (shared m) =
      cerr w ++ (if console_output (log_config w) then [log_message] else []) ∧
    (files (shared m) = files w ∨
     file_output (log_config w) = true ∧
     files (shared m) =
       append_chunk (log_filename (log_config w)) log_message (files w)).
Proof.
  destruct w as [[co fo rl fmt fname] mu data st attr out fs u].
  set (P := λ m : machine (U:=U) unit, caller m = Return tt →
    ∃ time log_message,
      render fmt time (stream_all args) level location = Ok log_message ∧
      pool m = [Worker log_message level (Return tt)] ∧
      cerr (shared m) = out ++ (if co then [log_message] else []) ∧
      (files (shared m) = fs ∨
       fo = true ∧ files (shared m) = append_chunk fname log_message fs)).
  revert sched. unfold start, log, format_message, deliver, write_to_console, write_to_file.
  destruct co, fo; repeat forward P ltac:(first
    [ by cbn
    | cbn; intros _; eexists _, _; split; [eapply render_ok; eassumption|];
      split; [done|]; split; [by rewrite ?app_nil_r|]; first [by left | by right] ]).
Qed.

(** If moreover the file can be opened, it has the record when
    [file_output] is set. *)
Lemma log_returned_file (w : world (U:=U)) level location args sched :
  files_open sched →
  let m := run sched (start w (log level location args (Return tt))) in
  caller m = Return tt →
  ∃ log_message,
    files (shared m) =
      if file_output (log_config w)
      then append_chunk (log_filename (log_config w)) log_message (files w)
      else files w.
Proof.
  destruct w as [[co fo rl fmt fname] mu data st attr out fs u].
  set (P := λ m : machine (U:=U) unit, caller m = Return tt →
    ∃ log_message,
      files (shared m) = if fo then append_chunk fname log_message fs else fs).
  revert sched. unfold files_open, start, log, format_message, deliver,
    write_to_console, write_to_file.
  destruct co, fo;
    repeat forward_when (λ l, open_succeeds l = true) P
      ltac:(first [ by cbn | cbn; intros _; by eexists ]).
Qed.

(** C2.  [log] returns only after delivery: in every run, once the caller
    is back from [log] the task started by [std::async] is over, the console
    has the record if [console_output] is set, and the file has been written
    if [file_output] is set and the file could be opened.  The call thus
    lasts as long as the sink I/O does. *)
Theorem log_returns_after_delivery (w : world (U:=U)) level location args sched :
  let m := run sched (start w (log level location args (Return tt))) in
  caller m = Return tt →
  ∃ time log_message,
    render (log_format (log_config w)) time (stream_all args) level location
      = Ok log_message ∧
    Forall (λ t, finished (code t) = true) (pool m) ∧
    pool m = [Worker log_message level (Return tt)] ∧
    cerr (shared m) =
      cerr w ++ (if console_output (log_config w) then [log_message] else []) ∧
    (files (shared m) = files w ∨
     file_output (log_config w) = true ∧
     files (shared m) =
       append_chunk (log_filename (log_config w)) log_message (files w)).
Proof.
  intros m Hm. destruct (log_returned w level location args sched Hm)
    as (time & s & Hr & Hp & Hc & Hf).
  exists time, s. fold m in Hp. rewrite Hp. repeat split; try done.
  by repeat constructor.
Qed.

(** C6.  [end_profiling] of a tag that is not registered: whatever the
    schedule, the registry, the console and the files stay as they were, no
    task is started, the caller neither throws nor terminates; and when the
    mutex is free the call returns. *)
Theorem end_profiling_absent_is_noop (w : world (U:=U)) (tag : string) :
  profiling_data w !! tag = None →
  (∀ sched,
     let m := run sched (start w (end_profiling header_file end_profiling_name tag)) in
     profiling_data (shared m) = profiling_data w ∧
     cerr (shared m) = cerr w ∧ files (shared m) = files w ∧
     pool m = [] ∧
     (∀ e, caller m ≠ Throw e) ∧ caller m ≠ Terminate) ∧
  (log_mutex w = None →
   ∃ sched,
     let m := run sched (start w (end_profiling header_file end_profiling_name tag)) in
     caller m = Return tt ∧ log_mutex (shared m) = None).
Proof.
  intros Hnone. destruct w as [cfg mu data st attr out fs u]. simpl in *. split.
  - set (P := λ m : machine (U:=U) unit, profiling_data (shared m) = data ∧
      cerr (shared m) = out ∧ files (shared m) = fs ∧ pool m = [] ∧
      (∀ e, caller m ≠ Throw e) ∧ caller m ≠ Terminate).
    unfold start, end_profiling. repeat forward P ltac:(by cbn).
  - intros ->. exists (replicate 4 (caller_moves st epoch)).
    cbn. by rewrite Hnone.
Qed.

(** C7.  The registry has one entry per tag at most, whatever program runs
    (its keys are pairwise distinct).  [start_profiling]: in every reachable
    state the registry is the old one or the old one with the tag bound to
    the clock's last reading, which is a reading the caller took during the
    call; a tag that was registered is overwritten without a second entry
    (the size is unchanged, the other tags keep their times); on return the
    tag is bound to the time just read; and when the mutex is free the call
    returns. *)
Theorem start_profiling_overwrites (w : world (U:=U)) (tag : string) :
  (∀ R (p : prog R) sched,
     NoDup (map_to_list (profiling_data (shared (run sched (start w p))))).*1) ∧
  (∀ sched,
     let m := run sched (start w (start_profiling tag)) in
     (profiling_data (shared m) = profiling_data w ∨
      profiling_data (shared m) = <[tag := steady (shared m)]> (profiling_data w) ∧
      ∃ l, l ∈ caller_labels sched ∧ steady (shared m) = clock_reading l) ∧
     (is_Some (profiling_data w !! tag) →
      size (profiling_data (shared m)) = size (profiling_data w)) ∧
     (∀ other, other ≠ tag →
      profiling_data (shared m) !! other = profiling_data w !! other) ∧
     (caller m = Return tt →
      profiling_data (shared m) !! tag = Some (steady (shared m)))) ∧
  (log_mutex w = None →
   ∃ sched, caller (run sched (start w (start_profiling tag))) = Return tt).
Proof.
  split; [intros; apply NoDup_fst_map_to_list|].
  destruct w as [cfg mu data st attr out fs u]. simpl. split.
  - intros sched.
    set (m0 := start (World cfg mu data st attr out fs u) (start_profiling tag)).
    assert (HQ :
      (profiling_data (shared (run sched m0)) = data ∨
       profiling_data (shared (run sched m0))
         = <[tag := steady (shared (run sched m0))]> data ∧
       ∃ l, l ∈ caller_labels sched ∧
            steady (shared (run sched m0)) = clock_reading l) ∧
      (caller (run sched m0) = Return tt →
       profiling_data (shared (run sched m0))
         = <[tag := steady (shared (run sched m0))]> data)).
    { destruct mu as [owner|].
      { rewrite run_stuck; [by split; [left|]|]. by intros [[|i] ? ? ?]. }
      destruct (run_to_caller sched m0 eq_refl)
        as [[_ ->]|(t1 & time1 & o1 & post1 & Hl1 & ->)]; [by split; [left|]|].
      subst m0. cbn.
      lazymatch goal with
      | |- context [run post1 ?m] =>
          destruct (run_to_caller post1 m eq_refl)
            as [[_ ->]|(t2 & time2 & o2 & post2 & Hl2 & ->)]; [by split; [left|]|]
      end.
      cbn. unfold with_steady, with_mutex. cbn.
      set (Q := λ m : machine (U:=U) unit,
        steady (shared m) = t2 ∧
        (profiling_data (shared m) = data ∨
         profiling_data (shared m) = <[tag := t2]> data) ∧
        (caller m = Return tt → profiling_data (shared m) = <[tag := t2]> data)).
      assert (HQ : ∀ sched, Q (run sched (Machine
        (World cfg (Some Caller) data t2 attr out fs u)
        (MapAssign tag t2 (Unlock (Return tt))) []))).
      { repeat forward Q ltac:(first
          [ by cbn; split; [|split; [left|]]
          | by cbn; split; [|split; [right|]] ]). }
      destruct (HQ post2) as (Hst & Hd & Hr). rewrite Hst. split; [|done].
      destruct Hd as [?|?]; [by left|right]. split; [done|].
      exists (Label Caller t2 time2 o2). split; [|done].
      rewrite Hl1, Hl2. apply elem_of_cons. right. apply elem_of_cons. by left. }
    destruct HQ as [Hd Hr]. split; [done|]. split; [|split].
    + intros [old Hold]. destruct Hd as [->|[-> _]]; [done|].
      by eapply map_size_insert_Some.
    + intros other Hne. destruct Hd as [->|[-> _]]; [done|].
      by rewrite lookup_insert_ne.
    + intros Hret. rewrite (Hr Hret). apply lookup_insert_eq.
  - intros ->. exists (replicate 4 (caller_moves st epoch)). done.
Qed.

(** C4.  [end_profiling] of a registered tag while a sink is enabled: the
    call never returns, whatever the schedule.  It formats the record and
    starts the task with [log_mutex] held; the task waits for the mutex, the
    caller waits for the task.  The tag stays registered and neither sink
    receives anything. *)
Theorem end_profiling_never_completes (w : world (U:=U)) (tag : string)
    (began : Z) (sched : list label) :
  profiling_data w !! tag = Some began →
  console_output (log_config w) = true ∨ file_output (log_config w) = true →
  let m := run sched (start w (end_profiling header_file end_profiling_name tag)) in
  (∀ r, caller m ≠ Return r) ∧
  profiling_data (shared m) !! tag = Some began ∧
  cerr (shared m) = cerr w ∧ files (shared m) = files w ∧
  Forall (λ t, finished (code t) = false) (pool m).
Proof.
  destruct w as [[co fo rl fmt fname] mu data st attr out fs u]. simpl.
  intros Hbegan Hsink.
  set (P := λ m : machine (U:=U) unit,
    (∀ r, caller m ≠ Return r) ∧
    profiling_data (shared m) !! tag = Some began ∧
    cerr (shared m) = out ∧ files (shared m) = fs ∧
    Forall (λ t, finished (code t) = false) (pool m)).
  revert sched.
  unfold start, end_profiling, log, format_message, deliver, write_to_console,
    write_to_file.
  destruct Hsink as [-> | ->]; [destruct fo|destruct co];
    repeat forward P ltac:(by cbn; repeat split; repeat constructor).
Qed.

(** C10.  Every task started by [end_profiling] or [profile_function]
    carries a Debug record rendered with the location of the [log] call
    inside the header (line 64, respectively line 76, of the header file, in
    the member function itself); the operations take no location from their
    caller. *)
Theorem profiling_records_carry_internal_location (w : world (U:=U))
    (tag : string) {A R} (func : A → U → result R * U) (args : A)
    (sched : list label) :
  Forall (duration_record w tag (end_profiling_location header_file end_profiling_name))
    (pool (run sched (start w (end_profiling header_file end_profiling_name tag)))) ∧
  Forall (duration_record w tag
            (profile_function_location header_file profile_function_name))
    (pool (run sched (start w
       (profile_function header_file profile_function_name tag func args)))).
Proof.
  destruct w as [[co fo rl fmt fname] mu data st attr out fs u].
  split; revert sched.
  - set (P := λ m : machine (U:=U) unit,
      Forall (duration_record (World (Build_Config co fo rl fmt fname)
                mu data st attr out fs u) tag
                (end_profiling_location header_file end_profiling_name)) (pool m)).
    unfold start, end_profiling, log, format_message, deliver, write_to_console,
      write_to_file.
    destruct co, fo;
      repeat forward P ltac:(first
        [ by cbn
        | cbn; repeat constructor; simpl; eexists _, _;
          eapply render_ok; eassumption ]).
  - set (P := λ m : machine (U:=U) R,
      Forall (duration_record (World (Build_Config co fo rl fmt fname)
                mu data st attr out fs u) tag
                (profile_function_location header_file profile_function_name))
             (pool m)).
    unfold start, profile_function, log, format_message, deliver, write_to_console,
      write_to_file.
    destruct co, fo;
      repeat forward P ltac:(first
        [ by cbn
        | cbn; repeat constructor; simpl; eexists _, _;
          eapply render_ok; eassumption ]).
Qed.

Lemma render_inv template time message level location log_message :
  render template time message level location = Ok log_message →
  ∃ m, replace_timestamp template time = Ok m ∧
       replace_rest m (get_log_level_prefix level).2 message location
       = Ok log_message.
Proof.
  unfold render. destruct (replace_timestamp template time) as [m|]; [|done].
  simpl. eauto.
Qed.

Lemma profile_function_profiled_once {A R} (w : world (U:=U)) (tag : string)
    (func : A → U → result R * U) (args : A) (sched : list label) :
  profiled_once w tag (func args (user w))
    (run sched (start w
       (profile_function header_file profile_function_name tag func args))).
Proof.
  destruct w as [[co fo rl fmt fname] mu data st attr out fs u]. simpl.
  destruct (func args u) as [outcome u'] eqn:Hf.
  set (P := profiled_once (R:=R) (World (Build_Config co fo rl fmt fname)
                mu data st attr out fs u) tag (outcome, u')).
  revert sched.
  unfold start, profile_function, log, format_message, deliver, write_to_console,
    write_to_file.
  destruct co, fo, outcome as [r|e];
    repeat forward P ltac:(first
      [ by cbn; unfold profiled_once; cbn; repeat split; auto
      | cbn; unfold profiled_once; cbn; repeat split; auto; try done;
        simplify_eq/=;
        first [ done | eexists; split; [done|]; by rewrite ?app_nil_r ] ]).
Qed.

(** C5, with exceptions as the code treats them.  [profile_function] runs
    the callable once, on the calling thread: the user's state is untouched
    before the call and is the callable's result state from then on.  If the
    callable returns [r], the only value [profile_function] can return is
    [r], and a record has been logged when it does; there is a run in which
    it returns [r] whenever [log_mutex] is free at the call and the duration
    record can be rendered from the template.  If the callable throws, the
    exception never leaves [profile_function]: the function is [noexcept],
    the process is terminated, and no record is emitted. *)
Theorem profile_function_transparent {A R} (w : world (U:=U)) (tag : string)
    (func : A → U → result R * U) (args : A) :
  let call := profile_function header_file profile_function_name tag func args in
  (∀ sched, profiled_once w tag (func args (user w)) (run sched (start w call))) ∧
  (∀ e, (func args (user w)).1 = Raise e →
     ∃ sched, caller (run sched (start w call)) = Terminate) ∧
  (∀ r t1 t2 time log_message,
     (func args (user w)).1 = Ok r →
     log_mutex w = None →
     render (log_format (log_config w)) time
       (stream_all (duration_message tag (microseconds t1 t2))) Debug
       (profile_function_location header_file profile_function_name)
     = Ok log_message →
     ∃ sched, caller (run sched (start w call)) = Return r ∧
       cerr (shared (run sched (start w call))) =
         cerr w ++ (if console_output (log_config w) then [log_message] else [])).
Proof.
  split; [|split].
  - apply profile_function_profiled_once.
  - destruct w as [cfg mu data st attr out fs u]. simpl. intros e He.
    exists (replicate 2 (caller_moves st epoch)).
    cbn. destruct (func args u) as [[r|e'] u']; simplify_eq/=. done.
  - destruct w as [[co fo rl fmt fname] mu data st attr out fs u]. simpl.
    intros r t1 t2 time s Hr -> (m & E1 & E2)%render_inv.
    destruct (func args u) as [[r'|e'] u'] eqn:Hf; simplify_eq/=.
    apply (reaches_run _ (λ m, caller m = Return r ∧
      cerr (shared m) = out ++ (if co then [s] else []))).
    unfold start, profile_function, log, format_message, deliver,
      write_to_console, write_to_file.
    cbn in E2.
    do 2 step_with (caller_moves t1 time). do 5 step_with (caller_moves t2 time).
    destruct co, fo; repeat step_with (task_moves t2 time);
      step_with (caller_moves t2 time);
      (apply reaches_here; cbn; by rewrite ?app_nil_r).
Qed.

Lemma same_world_refl (w : world (U:=U)) : same_world w w.
Proof. by repeat split. Qed.

(** Appending a chunk makes the file longer. *)
Lemma append_chunk_longer name s (fs : gmap string (list string)) :
  length <$> append_chunk name s fs ≠ length <$> fs.
Proof.
  intros H. apply (f_equal (λ m, m !! name)) in H. unfold append_chunk in H.
  rewrite !lookup_fmap, lookup_insert_eq in H.
  destruct (fs !! name) as [x|]; simpl in H; [|done].
  injection H. rewrite length_app. simpl. lia.
Qed.

(** When [log] has returned, the record is the one rendered with the local
    time the caller was given at its first step, and it is what the enabled
    sinks have received; [opened] tells whether the file could be opened. *)
Lemma log_returned_at (w : world (U:=U)) level location args sched :
  let m := run sched (start w (log level location args (Return tt))) in
  caller m = Return tt →
  ∃ l rest log_message opened,
    caller_labels sched = l :: rest ∧
    render (log_format (log_config w)) (local_time l) (stream_all args) level location
      = Ok log_message ∧
    cerr (shared m) =
      cerr w ++ (if console_output (log_config w) then [log_message] else []) ∧
    files (shared m) =
      (if file_output (log_config w) && opened
       then append_chunk (log_filename (log_config w)) log_message (files w)
       else files w).
Proof.
  destruct w as [[co fo rl fmt fname] mu data st attr out fs u]. simpl.
  destruct (run_to_caller sched
              (start (World (Build_Config co fo rl fmt fname) mu data st attr out fs u)
                 (log level location args (Return tt))) eq_refl)
    as [[_ ->]|(t & time & o & post & Hl & ->)]; [by cbn|].
  cbn.
  set (P := λ m : machine (U:=U) unit, caller m = Return tt →
    ∃ log_message opened,
      render fmt time (stream_all args) level location = Ok log_message ∧
      cerr (shared m) = out ++ (if co then [log_message] else []) ∧
      files (shared m) =
        (if fo && opened then append_chunk fname log_message fs else fs)).
  lazymatch goal with
  | |- context [run post ?M] => assert (HP : ∀ sched', P (run sched' M))
  end.
  { unfold deliver, write_to_console, write_to_file.
    destruct co, fo;
      repeat forward P ltac:(first
        [ by cbn
        | cbn; intros _; eexists _, true; split; [eapply render_ok; eassumption|];
          by rewrite ?app_nil_r
        | cbn; intros _; eexists _, false; split; [eapply render_ok; eassumption|];
          by rewrite ?app_nil_r ]). }
  intros Hret. destruct (HP post Hret) as (s & opened & ? & ? & ?).
  by exists (Label Caller t time o), (caller_labels post), s, opened.
Qed.

(** C9.  The level of a [log] call does not affect routing.  Two calls that
    differ in the level only, run under the same schedule, go through the
    same steps: the machines agree on everything but the text and the
    console attribute, so the console and every file have received the same
    number of records, and when one call has returned so has the other.
    When the calls have returned, each record is the template rendered with
    the same local time, message and location and the prefix of its level;
    the console has received the record exactly if [console_output] is set,
    and the configured file exactly if [file_output] is set and the file
    could be opened, which is the same for both calls. *)
Theorem level_never_affects_routing (w : world (U:=U)) level1 level2
    location args sched :
  let run_at level := run sched (start w (log level location args (Return tt))) in
  same_machine (run_at level1) (run_at level2) ∧
  received (run_at level1) = received (run_at level2) ∧
  (caller (run_at level1) = Return tt →
   caller (run_at level2) = Return tt ∧
   ∃ l rest record1 record2 opened,
     caller_labels sched = l :: rest ∧
     render (log_format (log_config w)) (local_time l) (stream_all args) level1
       location = Ok record1 ∧
     render (log_format (log_config w)) (local_time l) (stream_all args) level2
       location = Ok record2 ∧
     cerr (shared (run_at level1)) =
       cerr w ++ (if console_output (log_config w) then [record1] else []) ∧
     cerr (shared (run_at level2)) =
       cerr w ++ (if console_output (log_config w) then [record2] else []) ∧
     files (shared (run_at level1)) =
       (if file_output (log_config w) && opened
        then append_chunk (log_filename (log_config w)) record1 (files w)
        else files w) ∧
     files (shared (run_at level2)) =
       (if file_output (log_config w) && opened
        then append_chunk (log_filename (log_config w)) record2 (files w)
        else files w) ∧
     (files_open sched → file_output (log_config w) = true → opened = true)).
Proof.
  intros run_at.
  assert (Hsame : same_machine (run_at level1) (run_at level2)).
  { apply run_same_machine. split; [apply same_world_refl|].
    split; [|constructor]. apply same_flow_log, same_flow_refl. }
  assert (Hrec : received (run_at level1) = received (run_at level2))
    by by apply same_machine_received.
  split; [done|]. split; [done|]. intros Hret1.
  assert (Hret2 : caller (run_at level2) = Return tt).
  { destruct Hsame as (_ & Hflow & _). rewrite Hret1 in Hflow. by inversion Hflow. }
  split; [done|].
  destruct (log_returned_at w level1 location args sched Hret1)
    as (l & rest & r1 & o1 & Hl & Hr1 & Hc1 & Hf1).
  destruct (log_returned_at w level2 location args sched Hret2)
    as (l' & rest' & r2 & o2 & Hl' & Hr2 & Hc2 & Hf2).
  fold (run_at level1) in Hc1, Hf1. fold (run_at level2) in Hc2, Hf2.
  rewrite Hl in Hl'. injection Hl' as <- <-.
  exists l, rest, r1, r2, o1. do 5 (split; [done|]).
  assert (Ho : file_output (log_config w) = true → o2 = o1).
  { intros Hfo. rewrite Hfo in Hf1, Hf2. simpl in Hf1, Hf2.
    apply (f_equal snd) in Hrec. unfold received in Hrec. simpl in Hrec.
    rewrite Hf1, Hf2 in Hrec. destruct o1, o2; try done.
    - by apply append_chunk_longer in Hrec.
    - symmetry in Hrec. by apply append_chunk_longer in Hrec. }
  split; [|split].
  - done.
  - destruct (file_output (log_config w)) eqn:Hfo; [|done]. by rewrite <-Ho.
  - intros Hopen Hfo.
    destruct (log_returned_file w level1 location args sched Hopen Hret1) as [s' Hs'].
    fold (run_at level1) in Hs'. rewrite Hfo in Hs', Hf1. simpl in Hf1.
    destruct o1; [done|]. rewrite Hf1 in Hs'.
    apply (f_equal (fmap length)) in Hs'. symmetry in Hs'.
    by apply append_chunk_longer in Hs'.
Qed.

(** X3.  A template without [%timestamp%] makes every [log] call throw:
    the first [replace] is called at [npos].  The caller never returns, no
    task is started, nothing is written, and the exception reaches the
    caller as soon as it has taken its two steps. *)
Theorem log_throws_without_timestamp (w : world (U:=U)) level location args :
  find_nat (log_format (log_config w)) "%timestamp%" = None →
  (N.of_nat (String.length (log_format (log_config w))) < npos)%N →
  (∀ sched,
     let m := run sched (start w (log level location args (Return tt))) in
     caller m ≠ Return tt ∧ pool m = [] ∧
     cerr (shared m) = cerr w ∧ files (shared m) = files w) ∧
  caller (run (replicate 2 (caller_moves (steady w) epoch))
            (start w (log level location args (Return tt))))
  = Throw out_of_range.
Proof.
  destruct w as [[co fo rl fmt fname] mu data st attr out fs u]. simpl.
  intros Hnone Hlen.
  assert (Hthrow : ∀ time, replace_timestamp fmt time = Raise out_of_range).
  { intros time. unfold replace_timestamp, replace.
    rewrite (find_nat_None_find _ _ Hnone).
    destruct (N.ltb_spec (N.of_nat (String.length fmt)) npos); [done|lia]. }
  split.
  - set (P := λ m : machine (U:=U) unit,
      caller m ≠ Return tt ∧ pool m = [] ∧
      cerr (shared m) = out ∧ files (shared m) = fs).
    unfold start, log, format_message.
    forward P ltac:(by cbn). forward P ltac:(by cbn).
    cbn. rewrite Hthrow. cbn. forward P ltac:(by cbn).
  - cbn. by rewrite Hthrow.
Qed.

(** X1.  With both sinks disabled [end_profiling] of a registered tag does
    complete: when it has returned, the tag is erased, one task was started
    and is over, and its record is the Debug record whose message is
    "Execution time for ", the tag, ": ", the elapsed microseconds between
    the recorded start and the clock reading of this call, " microseconds",
    rendered with the location of line 64; the sinks have received nothing.
    It does return when the mutex is free and the record can be rendered. *)
Theorem end_profiling_completes_when_quiet (w : world (U:=U)) (tag : string)
    (began : Z) :
  profiling_data w !! tag = Some began →
  console_output (log_config w) = false → file_output (log_config w) = false →
  let call := end_profiling header_file end_profiling_name tag in
  (∀ sched,
     let m := run sched (start w call) in
     caller m = Return tt →
     profiling_data (shared m) = delete tag (profiling_data w) ∧
     cerr (shared m) = cerr w ∧ files (shared m) = files w ∧
     ∃ time log_message,
       render (log_format (log_config w)) time
         ("Execution time for " +:+ tag +:+ ": " +:+
          pretty (microseconds began (steady (shared m))) +:+ " microseconds")
         Debug (end_profiling_location header_file end_profiling_name)
       = Ok log_message ∧
       pool m = [Worker log_message Debug (Return tt)]) ∧
  (∀ time end_time log_message,
     log_mutex w = None → steady w ≤ end_time →
     render (log_format (log_config w)) time
       ("Execution time for " +:+ tag +:+ ": " +:+
        pretty (microseconds began end_time) +:+ " microseconds")
       Debug (end_profiling_location header_file end_profiling_name)
     = Ok log_message →
     ∃ sched, caller (run sched (start w call)) = Return tt ∧
       profiling_data (shared (run sched (start w call))) !! tag = None).
Proof.
  destruct w as [[co fo rl fmt fname] mu data st attr out fs u]. simpl.
  intros Hbegan -> ->. split.
  - set (P := λ m : machine (U:=U) unit, caller m = Return tt →
      profiling_data (shared m) = delete tag data ∧
      cerr (shared m) = out ∧ files (shared m) = fs ∧
      ∃ time log_message,
        render fmt time
          ("Execution time for " +:+ tag +:+ ": " +:+
           pretty (microseconds began (steady (shared m))) +:+ " microseconds")
          Debug (end_profiling_location header_file end_profiling_name)
        = Ok log_message ∧
        pool m = [Worker log_message Debug (Return tt)]).
    unfold start, end_profiling, log, format_message, deliver.
    repeat forward P ltac:(first
      [ by cbn
      | cbn; intros _; repeat split; eexists _, _; split; [|done];
        eapply render_ok; eassumption ]).
  - intros time end_time s -> Hle (m & E1 & E2)%render_inv.
    apply (reaches_run _ (λ m, caller m = Return tt ∧
      profiling_data (shared m) !! tag = None)).
    unfold start, end_profiling, log, format_message, deliver.
    assert (E2' : replace_rest m (get_log_level_prefix Debug).2
              (stream_all (duration_message tag (microseconds began end_time)))
              (end_profiling_location header_file end_profiling_name) = Ok s)
      by exact E2.
    clear E2. cbn in E2'.
    do 7 step_with (caller_moves end_time time).
    do 2 step_with (task_moves end_time time).
    do 3 step_with (caller_moves end_time time).
    apply reaches_here; cbn. split; [done|apply lookup_delete_eq].
Qed.

(** ** What the sinks keep *)

Lemma thread_step_appends {R} me l ws (w w' : world (U:=U)) (p p' : prog R) new :
  thread_step me l ws w p = Some (w', p', new) →
  cerr w `prefix_of` cerr w' ∧
  ∀ name, chunks name w `prefix_of` chunks name w'.
Proof.
  unfold chunks.
  destruct p; simpl; intros Hs; repeat case_match; simplify_eq; simpl;
    try (split; [done|intros; done]).
  - split; [by apply prefix_app_r|done].
  - split; [done|]. intros n. unfold append_chunk.
    destruct (decide (name = n)) as [->|Hne].
    + rewrite lookup_insert_eq. simpl. by apply prefix_app_r.
    + by rewrite lookup_insert_ne.
Qed.

Lemma mstep_appends {R} l (m m' : machine (U:=U) R) :
  mstep l m = Some m' →
  cerr (shared m) `prefix_of` cerr (shared m') ∧
  ∀ name, chunks name (shared m) `prefix_of` chunks name (shared m').
Proof.
  unfold mstep. intros Hs.
  repeat case_match; simplify_eq; simpl; by eapply thread_step_appends.
Qed.

(** X4.  The sinks are only appended to.  Whatever program runs, under
    whatever schedule, what the console and each file held before is a
    prefix of what they hold afterwards: nothing is overwritten, truncated
    or removed. *)
Theorem sinks_append_only {R} (m : machine (U:=U) R) (sched : list label) :
  cerr (shared m) `prefix_of` cerr (shared (run sched m)) ∧
  ∀ name, chunks name (shared m) `prefix_of` chunks name (shared (run sched m)).
Proof.
  revert m. induction sched as [|l sched IH]; intros m; simpl; [done|].
  destruct (mstep l m) as [m'|] eqn:E; simpl; [|apply IH].
  destruct (mstep_appends l m m' E) as [Hc Hf], (IH m') as [Hc' Hf'].
  split; [by trans (cerr (shared m'))|].
  intros name. by trans (chunks name (shared m')).
Qed.

(** ** The effect of [log] *)

Lemma replace_raises s pos count v e :
  replace s pos count v = Raise e → e = out_of_range.
Proof. unfold replace. case_match; congruence. Qed.

Lemma replace_rest_raises m pfx message location e :
  replace_rest m pfx message location = Raise e → e = out_of_range.
Proof.
  unfold replace_rest.
  destruct (replace m _ 7 pfx) as [a|] eqn:Ea; simpl;
    [|intros [= <-]; by eapply replace_raises].
  destruct (replace a _ 9 message) as [b|] eqn:Eb; simpl;
    [|intros [= <-]; by eapply replace_raises].
  destruct (replace b _ 6 _) as [c|] eqn:Ec; simpl;
    [|intros [= <-]; by eapply replace_raises].
  destruct (replace c _ 6 _) as [d|] eqn:Ed; simpl;
    [|intros [= <-]; by eapply replace_raises].
  apply replace_raises.
Qed.

Lemma log_has_effect (w : world (U:=U)) level location args sched :
  log_effect w level location args
    (run sched (start w (log level location args (Return tt)))).
Proof.
  destruct w as [[co fo rl fmt fname] mu data st attr out fs u].
  set (P := log_effect (World (Build_Config co fo rl fmt fname)
                          mu data st attr out fs u) level location args).
  revert sched. unfold start, log, format_message, deliver, write_to_console,
    write_to_file.
  destruct co, fo;
    repeat forward P ltac:(first
      [ by cbn; unfold log_effect; cbn; repeat split; auto
      | cbn; unfold log_effect; cbn; repeat split; auto; try done;
        simplify_eq/=;
        first
          [ done
          | by eapply replace_raises
          | by eapply replace_rest_raises
          | by left | by right
          | eexists _, _, true; split; [eapply render_ok; eassumption|];
            by rewrite ?app_nil_r
          | eexists _, _, false; split; [eapply render_ok; eassumption|];
            by rewrite ?app_nil_r ] ]).
Qed.

(** X6.  [log] leaves everything but the sinks and the console attribute
    alone: in every reachable state the configuration, the profiling
    registry, the user's state and the clock reading are what they were; when
    the call has returned or thrown the mutex is as it was found; and the
    only exception [log] throws is [std::out_of_range], before any task was
    started and before anything was written. *)
Theorem log_leaves_state_alone (w : world (U:=U)) level location args sched :
  let m := run sched (start w (log level location args (Return tt))) in
  log_config (shared m) = log_config w ∧
  profiling_data (shared m) = profiling_data w ∧
  user (shared m) = user w ∧
  steady (shared m) = steady w ∧
  (left_call (caller m) → log_mutex (shared m) = log_mutex w) ∧
  (∀ e, caller m = Throw e →
   e = out_of_range ∧ pool m = [] ∧
   cerr (shared m) = cerr w ∧ files (shared m) = files w).
Proof.
  intros m.
  destruct (log_has_effect w level location args sched)
    as (Hc & Hd & Hu & Hs & Hret & Hthrow).
  fold m in Hc, Hd, Hu, Hs, Hret, Hthrow. repeat split; try done.
  - destruct (caller m) as [[]|e| | | | | | | | | | | | | | | | ] eqn:E; try done.
    + intros _. by destruct Hret.
    + intros _. by destruct (Hthrow e) as (_ & ? & _).
  - by destruct (Hthrow e) as (? & _).
  - by destruct (Hthrow e) as (_ & _ & ? & _).
  - by destruct (Hthrow e) as (_ & _ & _ & ? & _).
  - by destruct (Hthrow e) as (_ & _ & _ & _ & ? & _).
Qed.

(** X7.  The colour [get_log_level_prefix] sets while the record is
    formatted is reset by the console sink only.  When [log] has returned
    the console attribute is white if [console_output] is set and the colour
    of the level if it is not. *)
Theorem console_attribute_after_log (w : world (U:=U)) level location args sched :
  let m := run sched (start w (log level location args (Return tt))) in
  caller m = Return tt →
  console_attribute (shared m) =
    if console_output (log_config w) then WHITE
    else (get_log_level_prefix level).1.
Proof.
  intros m Hret.
  destruct (log_has_effect w level location args sched) as (_ & _ & _ & _ & H & _).
  by destruct (H Hret) as (_ & time & s & opened & _ & _ & _ & ?).
Qed.

(** When the file can be opened, the record that went to the console is
    the one in the file. *)
Lemma log_returned_open (w : world (U:=U)) level location args sched :
  files_open sched →
  let m := run sched (start w (log level location args (Return tt))) in
  caller m = Return tt →
  ∃ time log_message,
    render (log_format (log_config w)) time (stream_all args) level location
      = Ok log_message ∧
    log_config (shared m) = log_config w ∧
    cerr (shared m) =
      cerr w ++ (if console_output (log_config w) then [log_message] else []) ∧
    files (shared m) =
      if file_output (log_config w)
      then append_chunk (log_filename (log_config w)) log_message (files w)
      else files w.
Proof.
  destruct w as [[co fo rl fmt fname] mu data st attr out fs u].
  set (P := λ m : machine (U:=U) unit, caller m = Return tt →
    ∃ time log_message,
      render fmt time (stream_all args) level location = Ok log_message ∧
      log_config (shared m) = Build_Config co fo rl fmt fname ∧
      cerr (shared m) = out ++ (if co then [log_message] else []) ∧
      files (shared m) = if fo then append_chunk fname log_message fs else fs).
  revert sched. unfold files_open, start, log, format_message, deliver,
    write_to_console, write_to_file.
  destruct co, fo;
    repeat forward_when (λ l, open_succeeds l = true) P
      ltac:(first
        [ by cbn
        | cbn; intros _; eexists _, _; split; [eapply render_ok; eassumption|];
          by rewrite ?app_nil_r ]).
Qed.

Lemma chunks_append_chunk name s (w : world (U:=U)) :
  chunks name (with_files (append_chunk name s (files w)) w) = chunks name w ++ [s].
Proof. unfold chunks, append_chunk. simpl. by rewrite lookup_insert_eq. Qed.

(** X5.  Two calls of [log], one after the other has returned, with files
    that open: the console (if enabled) and the configured file (if enabled)
    hold what they held before followed by the first record and then the
    second; a disabled sink is untouched. *)
Theorem two_logs_append_in_order (w : world (U:=U))
    level1 location1 args1 level2 location2 args2 sched1 sched2 :
  files_open sched1 → files_open sched2 →
  let m1 := run sched1 (start w (log level1 location1 args1 (Return tt))) in
  let m2 := run sched2 (start (shared m1) (log level2 location2 args2 (Return tt))) in
  caller m1 = Return tt → caller m2 = Return tt →
  ∃ time1 time2 record1 record2,
    render (log_format (log_config w)) time1 (stream_all args1) level1 location1
      = Ok record1 ∧
    render (log_format (log_config w)) time2 (stream_all args2) level2 location2
      = Ok record2 ∧
    cerr (shared m2) =
      cerr w ++ (if console_output (log_config w) then [record1; record2] else []) ∧
    (if file_output (log_config w)
     then chunks (log_filename (log_config w)) (shared m2) =
            chunks (log_filename (log_config w)) w ++ [record1; record2]
     else files (shared m2) = files w).
Proof.
  intros Ho1 Ho2 m1 m2 Hr1 Hr2.
  destruct (log_returned_open w level1 location1 args1 sched1 Ho1 Hr1)
    as (time1 & r1 & Hrender1 & Hcfg & Hc1 & Hf1).
  destruct (log_returned_open (shared m1) level2 location2 args2 sched2 Ho2 Hr2)
    as (time2 & r2 & Hrender2 & _ & Hc2 & Hf2).
  fold m1 in Hcfg, Hc1, Hf1. fold m2 in Hc2, Hf2. rewrite Hcfg in *.
  exists time1, time2, r1, r2. split; [done|]. split; [done|]. split.
  - rewrite Hc2, Hc1. destruct (console_output _); by rewrite <-?app_assoc.
  - destruct (file_output _); [|congruence].
    unfold chunks. rewrite Hf2, Hf1. unfold append_chunk.
    rewrite !lookup_insert_eq. simpl. by rewrite <-app_assoc.
Qed.

(** ** [set_config] and [start_profiling] *)



(** X15.  [start_profiling] touches the registry and nothing else: the
    configuration, the sinks, the console attribute and the user's state stay
    as they were, no task is started, and it neither throws nor terminates.
    It returns only if it found the mutex free, and then leaves it free;
    while the mutex is held it waits, with the registry unchanged. *)
Theorem start_profiling_touches_registry_only (w : world (U:=U)) (tag : string)
    (sched : list label) :
  let m := run sched (start w (start_profiling tag)) in
  log_config (shared m) = log_config w ∧
  cerr (shared m) = cerr w ∧ files (shared m) = files w ∧
  console_attribute (shared m) = console_attribute w ∧
  user (shared m) = user w ∧
  pool m = [] ∧ caller m ≠ Terminate ∧ (∀ e, caller m ≠ Throw e) ∧
  (caller m = Return tt → log_mutex w = None ∧ log_mutex (shared m) = None) ∧
  (log_mutex w ≠ None →
   caller m ≠ Return tt ∧ shared m = w).
Proof.
  destruct w as [cfg mu data st attr out fs u].
  set (P := λ m : machine (U:=U) unit,
    log_config (shared m) = cfg ∧ cerr (shared m) = out ∧ files (shared m) = fs ∧
    console_attribute (shared m) = attr ∧ user (shared m) = u ∧
    pool m = [] ∧ caller m ≠ Terminate ∧ (∀ e, caller m ≠ Throw e) ∧
    (caller m = Return tt → mu = None ∧ log_mutex (shared m) = None) ∧
    (mu ≠ None →
     caller m ≠ Return tt ∧ shared m = World cfg mu data st attr out fs u)).
  revert sched. unfold start, start_profiling.
  repeat forward P ltac:(by cbn; repeat split).
Qed.

(** ** A template that cannot be rendered, inside the [noexcept] functions *)

Lemma replace_timestamp_raises template time :
  find_nat template "%timestamp%" = None →
  (N.of_nat (String.length template) < npos)%N →
  replace_timestamp template time = Raise out_of_range.
Proof.
  intros Hnone Hlen. unfold replace_timestamp, replace.
  rewrite (find_nat_None_find _ _ Hnone).
  destruct (N.ltb_spec (N.of_nat (String.length template)) npos); [done|lia].
Qed.

(** X9.  [end_profiling] of a registered tag under a template without
    [%timestamp%] ends the process: formatting throws inside a [noexcept]
    function.  The call neither returns nor throws, the tag stays
    registered, no task is started, nothing is written, and
    [std::terminate] is reached with the mutex still held. *)
Theorem end_profiling_terminates_without_timestamp (w : world (U:=U))
    (tag : string) (began : Z) :
  profiling_data w !! tag = Some began →
  find_nat (log_format (log_config w)) "%timestamp%" = None →
  (N.of_nat (String.length (log_format (log_config w))) < npos)%N →
  let call := end_profiling header_file end_profiling_name tag in
  (∀ sched,
     let m := run sched (start w call) in
     (∀ r, caller m ≠ Return r) ∧ (∀ e, caller m ≠ Throw e) ∧
     profiling_data (shared m) !! tag = Some began ∧ pool m = [] ∧
     cerr (shared m) = cerr w ∧ files (shared m) = files w ∧
     (caller m = Terminate → log_mutex (shared m) = Some Caller)) ∧
  (log_mutex w = None →
   caller (run (replicate 5 (caller_moves (steady w) epoch)) (start w call))
   = Terminate).
Proof.
  destruct w as [[co fo rl fmt fname] mu data st attr out fs u]. simpl.
  intros Hbegan Hnone Hlen.
  pose proof (λ time, replace_timestamp_raises fmt time Hnone Hlen) as Hthrow.
  split.
  - set (P := λ m : machine (U:=U) unit,
      (∀ r, caller m ≠ Return r) ∧ (∀ e, caller m ≠ Throw e) ∧
      profiling_data (shared m) !! tag = Some began ∧ pool m = [] ∧
      cerr (shared m) = out ∧ files (shared m) = fs ∧
      (caller m = Terminate → log_mutex (shared m) = Some Caller)).
    unfold start, end_profiling, log, format_message.
    do 5 forward P ltac:(by cbn).
    cbn. rewrite Hthrow. cbn. forward P ltac:(by cbn).
  - intros ->. cbn. rewrite Hbegan. cbn. by rewrite Hthrow.
Qed.

(** Under a template without [%timestamp%] no run of [profile_function]
    returns or throws, starts a task or writes anything. *)
Lemma profile_function_unrenderable {A R} (w : world (U:=U)) (tag : string)
    (func : A → U → result R * U) (args : A) (sched : list label) :
  find_nat (log_format (log_config w)) "%timestamp%" = None →
  (N.of_nat (String.length (log_format (log_config w))) < npos)%N →
  let m := run sched (start w
             (profile_function header_file profile_function_name tag func args)) in
  (∀ r, caller m ≠ Return r) ∧ (∀ e, caller m ≠ Throw e) ∧ pool m = [] ∧
  cerr (shared m) = cerr w ∧ files (shared m) = files w.
Proof.
  destruct w as [[co fo rl fmt fname] mu data st attr out fs u]. simpl.
  intros Hnone Hlen.
  pose proof (λ time, replace_timestamp_raises fmt time Hnone Hlen) as Hthrow.
  set (P := λ m : machine (U:=U) R,
    (∀ r, caller m ≠ Return r) ∧ (∀ e, caller m ≠ Throw e) ∧ pool m = [] ∧
    cerr (shared m) = out ∧ files (shared m) = fs).
  revert sched. unfold start, profile_function, log, format_message.
  forward P ltac:(by cbn). forward P ltac:(by cbn).
  - do 3 forward P ltac:(by cbn).
    cbn. rewrite Hthrow. cbn. forward P ltac:(by cbn).
  - forward P ltac:(by cbn).
Qed.

(** X10.  [profile_function] under a template without [%timestamp%] ends
    the process after the callable has run: the callable's effect on the
    user's state is there, but its result is never returned, no exception
    reaches the caller, no task is started and nothing is written. *)
Theorem profile_function_terminates_without_timestamp {A R} (w : world (U:=U))
    (tag : string) (func : A → U → result R * U) (args : A) :
  find_nat (log_format (log_config w)) "%timestamp%" = None →
  (N.of_nat (String.length (log_format (log_config w))) < npos)%N →
  let call := profile_function header_file profile_function_name tag func args in
  (∀ sched,
     let m := run sched (start w call) in
     (∀ r, caller m ≠ Return r) ∧ (∀ e, caller m ≠ Throw e) ∧ pool m = [] ∧
     cerr (shared m) = cerr w ∧ files (shared m) = files w) ∧
  caller (run (replicate 5 (caller_moves (steady w) epoch)) (start w call))
    = Terminate ∧
  user (shared (run (replicate 5 (caller_moves (steady w) epoch)) (start w call)))
    = (func args (user w)).2.
Proof.
  intros Hnone Hlen call.
  split; [intros sched; by apply profile_function_unrenderable|].
  destruct w as [[co fo rl fmt fname] mu data st attr out fs u]. simpl in *.
  pose proof (λ time, replace_timestamp_raises fmt time Hnone Hlen) as Hthrow.
  subst call. cbn.
  destruct (func args u) as [[r|e] u']; cbn; [|done].
  by rewrite Hthrow.
Qed.

(** While [log_mutex] is held and not given back, and a sink is enabled,
    the task of [profile_function] cannot deliver its record, so the call
    does not return. *)
Lemma profile_function_blocked {A R} (w : world (U:=U)) (tag : string)
    (func : A → U → result R * U) (args : A) (owner : tid) (sched : list label) :
  log_mutex w = Some owner →
  console_output (log_config w) = true ∨ file_output (log_config w) = true →
  ∀ r, caller (run sched (start w
         (profile_function header_file profile_function_name tag func args)))
       ≠ Return r.
Proof.
  destruct w as [[co fo rl fmt fname] mu data st attr out fs u]. simpl.
  intros -> Hsink.
  set (P := λ m : machine (U:=U) R,
    (∀ r, caller m ≠ Return r) ∧
    Forall (λ t, finished (code t) = false) (pool m)).
  enough (P (run sched (start
    (World (Build_Config co fo rl fmt fname) (Some owner) data st attr out fs u)
    (profile_function header_file profile_function_name tag func args))))
    as [? _] by done.
  revert sched.
  unfold start, profile_function, log, format_message, deliver, write_to_console,
    write_to_file.
  destruct Hsink as [-> | ->]; [destruct fo|destruct co];
    repeat forward P ltac:(by cbn; repeat split; repeat constructor).
Qed.

(** ** Durations *)

(** The cast to microseconds truncates toward zero. *)
Lemma microseconds_bounds (began ended : Z) :
  began ≤ ended →
  0 ≤ microseconds began ended ∧
  1000 * microseconds began ended ≤ ended - began < 1000 * microseconds began ended + 1000.
Proof.
  intros Hle. unfold microseconds.
  pose proof (Z.quot_rem' (ended - began) 1000) as Hqr.
  pose proof (Z.rem_bound_pos (ended - began) 1000 ltac:(lia) ltac:(lia)).
  pose proof (Z.quot_pos (ended - began) 1000 ltac:(lia) ltac:(lia)).
  lia.
Qed.

(** A second reading that lies a microsecond or more before the first
    gives a negative duration. *)
Lemma microseconds_negative (began ended : Z) :
  ended + 1000 ≤ began → microseconds began ended < 0.
Proof.
  intros Hle. unfold microseconds.
  pose proof (Z.quot_rem' (ended - began) 1000) as Hqr.
  pose proof (Z.rem_nonpos (ended - began) 1000 ltac:(lia) ltac:(lia)).
  pose proof (Z.rem_bound_abs (ended - began) 1000 ltac:(lia)).
  lia.
Qed.

(** X12.  The record of [profile_function] reports the time between the
    two clock readings around the callable.  The caller's first step reads
    the clock and changes nothing else, its second step is the callable and
    its third reads the clock again.  When the call has returned, its task
    carries the Debug record with message
    "Execution time for <tag>: <d> microseconds", rendered with the location
    of line 76, where [d] is the difference of the third step's reading and
    the first step's, in microseconds, truncated toward zero.  If the clock
    did not go back between the two readings, [d] is not negative and
    under-reports by less than a microsecond; if it went back by a
    microsecond or more, [d] is negative. *)
Theorem profile_function_reports_elapsed {A R} (w : world (U:=U)) (tag : string)
    (func : A → U → result R * U) (args : A) (sched : list label) (r : R) :
  let call := profile_function header_file profile_function_name tag func args in
  let m := run sched (start w call) in
  caller m = Return r →
  ∃ l0 l1 l2 rest time log_message,
    caller_labels sched = l0 :: l1 :: l2 :: rest ∧
    shared (run [l0] (start w call)) = with_steady (clock_reading l0) w ∧
    shared (run [l0; l1] (start w call)) =
      with_user (func args (user w)).2 (with_steady (clock_reading l0) w) ∧
    shared (run [l0; l1; l2] (start w call)) =
      with_steady (clock_reading l2)
        (with_user (func args (user w)).2 (with_steady (clock_reading l0) w)) ∧
    render (log_format (log_config w)) time
      ("Execution time for " +:+ tag +:+ ": " +:+
       pretty (microseconds (clock_reading l0) (clock_reading l2)) +:+
       " microseconds")
      Debug (profile_function_location header_file profile_function_name)
    = Ok log_message ∧
    pool m = [Worker log_message Debug (Return tt)] ∧
    (clock_reading l0 ≤ clock_reading l2 →
     0 ≤ microseconds (clock_reading l0) (clock_reading l2) ∧
     1000 * microseconds (clock_reading l0) (clock_reading l2)
       ≤ clock_reading l2 - clock_reading l0
       < 1000 * microseconds (clock_reading l0) (clock_reading l2) + 1000) ∧
    (clock_reading l2 + 1000 ≤ clock_reading l0 →
     microseconds (clock_reading l0) (clock_reading l2) < 0).
Proof.
  destruct w as [[co fo rl fmt fname] mu data st attr out fs u]. simpl.
  destruct (run_to_caller sched
              (start (World (Build_Config co fo rl fmt fname) mu data st attr out fs u)
                 (profile_function header_file profile_function_name tag func args))
              eq_refl)
    as [[_ ->]|(t0 & time0 & o0 & post0 & Hl0 & ->)]; [by cbn|].
  cbn.
  lazymatch goal with
  | |- context [run post0 ?M] =>
      destruct (run_to_caller post0 M eq_refl)
        as [[_ ->]|(t1 & time1 & o1 & post1 & Hl1 & ->)]; [by cbn|]
  end.
  cbn. destruct (func args u) as [[r'|e] u'] eqn:Hf; cbn;
    [|rewrite run_stuck; [by cbn|by intros [[|i] ? ? ?]]].
  lazymatch goal with
  | |- context [run post1 ?M] =>
      destruct (run_to_caller post1 M eq_refl)
        as [[_ ->]|(t2 & time2 & o2 & post2 & Hl2 & ->)]; [by cbn|]
  end.
  cbn. unfold with_steady, with_user. cbn.
  set (P := λ m : machine (U:=U) R, caller m = Return r →
    ∃ time log_message,
      render fmt time
        ("Execution time for " +:+ tag +:+ ": " +:+
         pretty (microseconds t0 t2) +:+ " microseconds")
        Debug (profile_function_location header_file profile_function_name)
      = Ok log_message ∧
      pool m = [Worker log_message Debug (Return tt)]).
  lazymatch goal with
  | |- context [run post2 ?M] => assert (HP : ∀ sched', P (run sched' M))
  end.
  { unfold log, format_message, deliver, write_to_console, write_to_file.
    destruct co, fo;
      repeat forward P ltac:(first
        [ by cbn
        | cbn; intros _; eexists _, _; split; [|done];
          eapply render_ok; eassumption ]). }
  intros Hret. destruct (HP post2 Hret) as (time & s & Hrender & Hpool).
  exists (Label Caller t0 time0 o0), (Label Caller t1 time1 o1),
    (Label Caller t2 time2 o2), (caller_labels post2), time, s.
  split; [by rewrite Hl0, Hl1, Hl2|]. split; [done|].
  split; [cbn; by rewrite Hf|]. split; [cbn; by rewrite Hf|].
  split; [done|]. split; [done|].
  split; [apply microseconds_bounds|apply microseconds_negative].
Qed.

(** ** Starting and ending a timer *)

(** [start_profiling] returns only from a free mutex; the caller's first
    step takes the mutex, its second reads the clock, and the tag is bound
    to that reading. *)
Lemma start_profiling_returned (w : world (U:=U)) (tag : string) sched :
  let m := run sched (start w (start_profiling tag)) in
  caller m = Return tt →
  log_mutex w = None ∧
  ∃ a l rest,
    caller_labels sched = a :: l :: rest ∧
    shared m =
      with_steady (clock_reading l)
        (with_data (<[tag := clock_reading l]> (profiling_data w)) w).
Proof.
  destruct w as [cfg mu data st attr out fs u]. simpl.
  destruct mu as [owner|].
  { rewrite run_stuck; [by cbn|by intros [[|i] ? ? ?]]. }
  destruct (run_to_caller sched
              (start (World cfg None data st attr out fs u) (start_profiling tag))
              eq_refl)
    as [[_ ->]|(t1 & time1 & o1 & post1 & Hl1 & ->)]; [by cbn|].
  cbn.
  lazymatch goal with
  | |- context [run post1 ?M] =>
      destruct (run_to_caller post1 M eq_refl)
        as [[_ ->]|(t2 & time2 & o2 & post2 & Hl2 & ->)]; [by cbn|]
  end.
  cbn. unfold with_steady, with_mutex, with_data. cbn.
  set (P := λ m : machine (U:=U) unit, caller m = Return tt →
    shared m = World cfg None (<[tag := t2]> data) t2 attr out fs u).
  lazymatch goal with
  | |- context [run post2 ?M] => assert (HP : ∀ sched', P (run sched' M))
  end.
  { repeat forward P ltac:(by cbn). }
  intros Hret. split; [done|].
  exists (Label Caller t1 time1 o1), (Label Caller t2 time2 o2), (caller_labels post2).
  split; [by rewrite Hl1, Hl2|]. by apply HP.
Qed.

(** [end_profiling] of a registered tag with both sinks off: it returns
    only from a free mutex; the caller's first step takes the mutex, its
    second reads the clock, and the record reports the time from the
    registered start to that reading. *)
Lemma end_profiling_quiet_returned (w : world (U:=U)) (tag : string) (began : Z)
    sched :
  profiling_data w !! tag = Some began →
  console_output (log_config w) = false → file_output (log_config w) = false →
  let m := run sched (start w (end_profiling header_file end_profiling_name tag)) in
  caller m = Return tt →
  ∃ a l rest time log_message,
    caller_labels sched = a :: l :: rest ∧
    profiling_data (shared m) = delete tag (profiling_data w) ∧
    cerr (shared m) = cerr w ∧ files (shared m) = files w ∧
    render (log_format (log_config w)) time
      (stream_all (duration_message tag (microseconds began (clock_reading l))))
      Debug (end_profiling_location header_file end_profiling_name)
    = Ok log_message ∧
    pool m = [Worker log_message Debug (Return tt)].
Proof.
  destruct w as [[co fo rl fmt fname] mu data st attr out fs u]. simpl.
  intros Hbegan -> ->.
  destruct mu as [owner|].
  { rewrite run_stuck; [by cbn|by intros [[|i] ? ? ?]]. }
  destruct (run_to_caller sched
              (start (World (Build_Config false false rl fmt fname)
                        None data st attr out fs u)
                 (end_profiling header_file end_profiling_name tag)) eq_refl)
    as [[_ ->]|(t1 & time1 & o1 & post1 & Hl1 & ->)]; [by cbn|].
  cbn.
  lazymatch goal with
  | |- context [run post1 ?M] =>
      destruct (run_to_caller post1 M eq_refl)
        as [[_ ->]|(t2 & time2 & o2 & post2 & Hl2 & ->)]; [by cbn|]
  end.
  cbn. unfold with_steady, with_mutex. cbn.
  set (P := λ m : machine (U:=U) unit, caller m = Return tt →
    profiling_data (shared m) = delete tag data ∧
    cerr (shared m) = out ∧ files (shared m) = fs ∧
    ∃ time log_message,
      render fmt time
        (stream_all (duration_message tag (microseconds began t2)))
        Debug (end_profiling_location header_file end_profiling_name)
      = Ok log_message ∧
      pool m = [Worker log_message Debug (Return tt)]).
  lazymatch goal with
  | |- context [run post2 ?M] => assert (HP : ∀ sched', P (run sched' M))
  end.
  { unfold log, format_message, deliver.
    repeat forward P ltac:(first
      [ by cbn
      | cbn; intros _; repeat split; try done; eexists _, _; split; [|done];
        eapply render_ok; eassumption ]). }
  intros Hret. destruct (HP post2 Hret) as (Hd & Hc & Hf & time & s & Hr & Hp).
  by exists (Label Caller t1 time1 o1), (Label Caller t2 time2 o2),
    (caller_labels post2), time, s; rewrite Hl1, Hl2.
Qed.

(** X11.  With both sinks disabled, [start_profiling] followed, after it
    has returned, by [end_profiling] of the same tag.  In each call the
    caller's first step takes the mutex and its second reads the clock.  The
    first call binds the tag to its reading.  When the second call has
    returned the tag is not registered any more (so a registry that did not
    have the tag is back as it was), the sinks are untouched, and the one
    task started carries the Debug record that reports the difference of the
    two readings in microseconds, truncated toward zero: not negative if the
    clock did not go back between the calls, negative if it went back by a
    microsecond or more. *)
Theorem start_then_end_round_trip (w : world (U:=U)) (tag : string) sched1 sched2 :
  console_output (log_config w) = false → file_output (log_config w) = false →
  let m1 := run sched1 (start w (start_profiling tag)) in
  let m2 := run sched2 (start (shared m1)
              (end_profiling header_file end_profiling_name tag)) in
  caller m1 = Return tt → caller m2 = Return tt →
  ∃ a1 l1 rest1 a2 l2 rest2 time log_message,
    caller_labels sched1 = a1 :: l1 :: rest1 ∧
    caller_labels sched2 = a2 :: l2 :: rest2 ∧
    profiling_data (shared m1) = <[tag := clock_reading l1]> (profiling_data w) ∧
    profiling_data (shared m2) = delete tag (profiling_data w) ∧
    (profiling_data w !! tag = None → profiling_data (shared m2) = profiling_data w) ∧
    cerr (shared m2) = cerr w ∧ files (shared m2) = files w ∧
    render (log_format (log_config w)) time
      (stream_all (duration_message tag
         (microseconds (clock_reading l1) (clock_reading l2))))
      Debug (end_profiling_location header_file end_profiling_name)
    = Ok log_message ∧
    pool m2 = [Worker log_message Debug (Return tt)] ∧
    (clock_reading l1 ≤ clock_reading l2 →
     0 ≤ microseconds (clock_reading l1) (clock_reading l2) ∧
     1000 * microseconds (clock_reading l1) (clock_reading l2)
       ≤ clock_reading l2 - clock_reading l1
       < 1000 * microseconds (clock_reading l1) (clock_reading l2) + 1000) ∧
    (clock_reading l2 + 1000 ≤ clock_reading l1 →
     microseconds (clock_reading l1) (clock_reading l2) < 0).
Proof.
  intros Hco Hfo m1 m2 Hr1 Hr2.
  destruct (start_profiling_returned w tag sched1 Hr1)
    as (Hmu & a1 & l1 & rest1 & Hl1 & Hw1).
  fold m1 in Hw1.
  assert (Hdata1 : profiling_data (shared m1) !! tag = Some (clock_reading l1)).
  { rewrite Hw1. simpl. apply lookup_insert_eq. }
  assert (Hcfg1 : log_config (shared m1) = log_config w) by by rewrite Hw1.
  destruct (end_profiling_quiet_returned (shared m1) tag _ sched2 Hdata1)
    as (a2 & l2 & rest2 & time & s & Hl2 & Hd & Hc & Hf & Hr & Hp);
    [by rewrite Hcfg1|by rewrite Hcfg1|done|].
  fold m2 in Hd, Hc, Hf, Hp.
  assert (Hdel : profiling_data (shared m2) = delete tag (profiling_data w)).
  { rewrite Hd, Hw1. simpl. apply delete_insert_eq. }
  exists a1, l1, rest1, a2, l2, rest2, time, s.
  split; [done|]. split; [done|]. split; [by rewrite Hw1|]. split; [done|].
  split; [intros Hnone; rewrite Hdel; by apply delete_id|].
  split; [by rewrite Hc, Hw1|]. split; [by rewrite Hf, Hw1|].
  split; [by rewrite <-Hcfg1|]. split; [done|].
  split; [apply microseconds_bounds|apply microseconds_negative].
Qed.

End Properties.

(** ** Concrete runs *)

(** C1.  A template that omits a placeholder makes [log] throw.  Under the
    configuration of the usage example, [format_message] reaches the
    substitution of [%function%], [find] returns [npos] and [replace] throws
    [std::out_of_range], which leaves [log]; no task is started and nothing
    is written, now or later. *)
Theorem missing_placeholder_throws :
  let m := run log_schedule
             (start (fresh readme_config)
                (log Info a_call_site [text "Start Success!"] (Return tt))) in
  find (log_format readme_config) "%function%" = npos ∧
  caller m = Throw out_of_range ∧ pool m = [] ∧
  cerr (shared m) = [] ∧ files (shared m) = ∅ ∧
  ∀ l, mstep l m = None.
Proof.
  vm_compute. repeat split. by intros [[|i] ? ? ?].
Qed.

(** C3.  The timestamp placeholder is not replaced in full.  The token
    [%timestamp%] has eleven characters and line 96 replaces ten, so the
    closing [%] stays behind the timestamp: with the default template and the
    inputs of the specification's example the console receives
    "[2024-01-02 03:04:05%] [+] hello ...". *)
Theorem timestamp_leaves_residue :
  let m := run log_schedule
             (start (fresh default_config)
                (log Info a_call_site [text "hello"] (Return tt))) in
  String.length "%timestamp%" = 11%nat ∧
  caller m = Return tt ∧
  cerr (shared m) =
    ["[2024-01-02 03:04:05%] [+] hello" +:+ newline +:+
     " -> File: a.cpp:42 (Function: main)" +:+ newline].
Proof. vm_compute. done. Qed.

(** C2 on a call under the default configuration: the call returns, and the
    console has the record by then. *)
Lemma log_returns_after_delivery_witness :
  let m := run log_schedule
             (start (fresh default_config)
                (log Info a_call_site [text "hello"] (Return tt))) in
  caller m = Return tt ∧
  ∃ time log_message,
    render (log_format default_config) time (stream_all [text "hello"]) Info
      a_call_site = Ok log_message ∧
    Forall (λ t, finished (code t) = true) (pool m) ∧
    pool m = [Worker log_message Info (Return tt)] ∧
    cerr (shared m) = [] ++ [log_message] ∧
    (files (shared m) = ∅ ∨
     false = true ∧
     files (shared m) = append_chunk "error_log.txt" log_message ∅).
Proof.
  split; [reflexivity|].
  apply (log_returns_after_delivery (fresh default_config) Info a_call_site
           [text "hello"] log_schedule).
  reflexivity.
Defined.

(** C4 on the usage example: tag "T" started, default configuration, every
    thread given its turns; the call is still not over. *)
Lemma end_profiling_never_completes_witness :
  let m := run end_schedule (start (profiling default_config) (end_profiling_here "T")) in
  (profiling_data (profiling default_config) !! "T" = Some 1000 ∧
   (console_output default_config = true ∨ file_output default_config = true)) ∧
  (∀ r, caller m ≠ Return r) ∧
  profiling_data (shared m) !! "T" = Some 1000 ∧
  cerr (shared m) = [] ∧ files (shared m) = ∅ ∧
  Forall (λ t, finished (code t) = false) (pool m).
Proof.
  split; [split; [reflexivity|left; reflexivity]|].
  apply (end_profiling_never_completes "logger.hpp" "end_profiling"
           (profiling default_config) "T" 1000 end_schedule).
  - reflexivity.
  - left; reflexivity.
Defined.

(** C6 on a fresh process and the tag "missing". *)
Lemma end_profiling_absent_is_noop_witness :
  profiling_data (fresh default_config) !! "missing" = None ∧
  (∀ sched,
     let m := run sched (start (fresh default_config) (end_profiling_here "missing")) in
     profiling_data (shared m) = ∅ ∧
     cerr (shared m) = [] ∧ files (shared m) = ∅ ∧
     pool m = [] ∧
     (∀ e, caller m ≠ Throw e) ∧ caller m ≠ Terminate) ∧
  (log_mutex (fresh default_config) = None →
   ∃ sched,
     let m := run sched (start (fresh default_config) (end_profiling_here "missing")) in
     caller m = Return tt ∧ log_mutex (shared m) = None).
Proof.
  split; [reflexivity|].
  apply (end_profiling_absent_is_noop "logger.hpp" "end_profiling"
           (fresh default_config) "missing").
  reflexivity.
Defined.

(** C7 on a process in which "T" is registered: started again, "T" is bound
    to the new reading and the registry still has one entry. *)
Lemma start_profiling_overwrites_witness :
  let m := run restart_schedule (start (profiling default_config) (start_profiling "T")) in
  (is_Some (profiling_data (profiling default_config) !! "T") ∧ caller m = Return tt) ∧
  size (profiling_data (shared m)) = size (profiling_data (profiling default_config)) ∧
  profiling_data (shared m) !! "T" = Some (steady (shared m)).
Proof.
  assert (H1 : is_Some (profiling_data (profiling default_config) !! "T"))
    by (by eexists).
  assert (H2 : caller (run restart_schedule
                 (start (profiling default_config) (start_profiling "T"))) = Return tt)
    by reflexivity.
  split; [done|].
  pose proof (proj1 (proj2 (start_profiling_overwrites (profiling default_config) "T"))
                restart_schedule) as (_ & Hsize & _ & Hret).
  split; [exact (Hsize H1)|exact (Hret H2)].
Defined.

(** C5, as stated, fails.  An exception of the callable does not reach the
    caller of [profile_function]: the process is terminated.  And a callable
    that returns 510 does not make [profile_function] return 510 in every
    case: under a template without [%timestamp%] the process is terminated
    after the callable has returned, and while [log_mutex] is held by a
    thread that keeps it, with the console sink enabled, the call never
    returns. *)
Lemma profile_function_swallows_exception :
  let raising :=
    start (fresh default_config) (profile_function_here "X" thrower 509%nat) in
  let unrenderable :=
    start (fresh short_config) (profile_function_here "X" successor 509%nat) in
  let blocked :=
    start (with_mutex (Some (Async_thread 7)) (fresh default_config))
      (profile_function_here "X" successor 509%nat) in
  (caller (run profile_schedule raising) = Terminate ∧
   ¬ ∃ sched, caller (run sched raising) = Throw (user_error "boom")) ∧
  (caller (run profile_schedule unrenderable) = Terminate ∧
   ¬ ∃ sched, caller (run sched unrenderable) = Return 510%nat) ∧
  (¬ ∃ sched, caller (run sched blocked) = Return 510%nat).
Proof.
  split; [|split].
  - split; [reflexivity|]. intros [sched H].
    pose proof (profile_function_profiled_once "logger.hpp" "profile_function"
                  (fresh default_config) "X" thrower 509%nat sched) as (_ & _ & Hno & _).
    by apply (Hno (user_error "boom")).
  - split; [reflexivity|]. intros [sched H].
    pose proof (profile_function_unrenderable "logger.hpp" "profile_function"
                  (fresh short_config) "X" successor 509%nat sched eq_refl eq_refl)
      as (Hno & _).
    by apply (Hno 510%nat).
  - intros [sched H].
    by apply (profile_function_blocked "logger.hpp" "profile_function"
                (with_mutex (Some (Async_thread 7)) (fresh default_config))
                "X" successor 509%nat (Async_thread 7) sched eq_refl
                (or_introl eq_refl) 510%nat).
Qed.

(** C5 on a callable that returns 510 after 150 ms: [profile_function]
    returns 510 and the console has the duration record. *)
Lemma profile_function_transparent_witness :
  ∃ sched,
    caller (run sched (start (fresh default_config)
                         (profile_function_here "X" successor 509%nat)))
    = Return 510%nat ∧
    cerr (shared (run sched (start (fresh default_config)
                                (profile_function_here "X" successor 509%nat))))
    = [] ++ ["[2024-01-02 03:04:05%] [*] Execution time for X: 150000 microseconds"
             +:+ newline +:+
             " -> File: logger.hpp:76 (Function: profile_function)" +:+ newline].
Proof.
  refine (proj2 (proj2 (profile_function_transparent "logger.hpp" "profile_function"
            (fresh default_config) "X" successor 509%nat))
            510%nat 0 150000000 a_time _ _ _ _).
  - reflexivity.
  - reflexivity.
  - vm_compute. reflexivity.
Defined.

(** C9, as stated, fails: with [console_output] and [file_output] both set
    a sink may still receive nothing.  Under the configuration of the usage
    example the call throws before its task is started, so neither sink
    receives the record; and when the log file cannot be opened the call
    returns with the record on the console and no file written. *)
Lemma flags_set_but_nothing_received :
  let thrown :=
    run log_schedule (start (fresh readme_config)
      (log Info a_call_site [text "Start Success!"] (Return tt))) in
  let unopened :=
    run closed_file_schedule (start (fresh both_sinks_config)
      (log Info a_call_site [text "hello"] (Return tt))) in
  (console_output readme_config = true ∧ file_output readme_config = true ∧
   caller thrown = Throw out_of_range ∧
   cerr (shared thrown) = [] ∧ files (shared thrown) = ∅ ∧
   ∀ l, mstep l thrown = None) ∧
  (file_output both_sinks_config = true ∧
   caller unopened = Return tt ∧
   length (cerr (shared unopened)) = 1%nat ∧ files (shared unopened) = ∅).
Proof.
  vm_compute. repeat split. by intros [[|i] ? ? ?].
Qed.

(** C9 on an Info and a Debug call with both sinks enabled: both return. *)
Lemma level_never_affects_routing_witness :
  let run_at level :=
    run log_schedule (start (fresh both_sinks_config)
      (log level a_call_site [text "hello"] (Return tt))) in
  caller (run_at Info) = Return tt ∧ caller (run_at Debug) = Return tt.
Proof.
  intros run_at. split; [reflexivity|].
  exact (proj1 (proj2 (proj2 (level_never_affects_routing (fresh both_sinks_config)
           Info Debug a_call_site [text "hello"] log_schedule)) eq_refl)).
Defined.

(** C10 on a process whose sinks are off: the task [end_profiling] starts
    carries the record of line 64 of the header. *)
Lemma profiling_records_carry_internal_location_witness :
  pool (run end_schedule (start (profiling quiet_config) (end_profiling_here "T"))) =
    [Worker ("[2024-01-02 03:04:05%] [*] Execution time for T: 100000 microseconds"
             +:+ newline +:+
             " -> File: logger.hpp:64 (Function: end_profiling)" +:+ newline)
            Debug (Return tt)] ∧
  Forall (duration_record (profiling quiet_config) "T"
            (end_profiling_location "logger.hpp" "end_profiling"))
    (pool (run end_schedule (start (profiling quiet_config) (end_profiling_here "T")))).
Proof.
  split; [vm_compute; reflexivity|].
  exact (proj1 (profiling_records_carry_internal_location "logger.hpp"
                  "end_profiling" "profile_function" (profiling quiet_config) "T"
                  successor 0%nat end_schedule)).
Defined.

(** X2 on the default template. *)
Lemma replace_timestamp_leaves_percent_witness :
  find_nat (log_format default_config) "%timestamp%" = Some 1%nat ∧
  replace_timestamp (log_format default_config) a_time =
    Ok ("[" +:+ "2024-01-02 03:04:05" +:+ "%" +:+
        "] %level% %message%" +:+ newline +:+
        " -> File: %file%:%line% (Function: %function%)" +:+ newline).
Proof.
  split; [reflexivity|].
  exact (replace_timestamp_leaves_percent (log_format default_config) a_time 1
           eq_refl).
Defined.

(** X3 on a template of two placeholders. *)
Lemma log_throws_without_timestamp_witness :
  (find_nat (log_format short_config) "%timestamp%" = None ∧
   (N.of_nat (String.length (log_format short_config)) < npos)%N) ∧
  caller (run (replicate 2 (caller_moves 0 epoch))
            (start (fresh short_config)
               (log Warning a_call_site [text "Running out of Memory!"] (Return tt))))
  = Throw out_of_range.
Proof.
  split; [split; reflexivity|].
  exact (proj2 (log_throws_without_timestamp (fresh short_config) Warning
                  a_call_site [text "Running out of Memory!"] eq_refl eq_refl)).
Defined.

(** X1 on a process whose sinks are off. *)
Lemma end_profiling_completes_when_quiet_witness :
  (profiling_data (profiling quiet_config) !! "T" = Some 1000 ∧
   console_output quiet_config = false ∧ file_output quiet_config = false) ∧
  ∃ sched,
    caller (run sched (start (profiling quiet_config) (end_profiling_here "T")))
    = Return tt ∧
    profiling_data (shared (run sched
      (start (profiling quiet_config) (end_profiling_here "T")))) !! "T" = None.
Proof.
  split; [repeat split|].
  refine (proj2 (end_profiling_completes_when_quiet "logger.hpp" "end_profiling"
            (profiling quiet_config) "T" 1000 eq_refl eq_refl eq_refl)
            a_time 100001000 _ eq_refl _ _).
  - done.
  - vm_compute. reflexivity.
Defined.

(** X13 on a string with the message token twice: the second stays. *)
Lemma later_placeholders_replace_first_occurrence_witness :
  substitute "%message%" 9 "hello" "[+] %message% (%message%)" =
    Ok ("[+] " +:+ "hello" +:+ " (%message%)").
Proof.
  refine (proj2 (proj2 (proj2 (proj2 later_placeholders_replace_first_occurrence
            "%message%" 9%N "[+] %message% (%message%)" "hello" 4%nat _ eq_refl)))).
  unfold later_placeholders. apply elem_of_cons. right. apply elem_of_cons. by left.
Defined.

Lemma log_schedule_files_open : files_open log_schedule.
Proof. unfold files_open, log_schedule. simpl. repeat constructor. Qed.

(** X5 on two calls under the default template with both sinks enabled. *)
Lemma two_logs_append_in_order_witness :
  let m1 := run log_schedule (start (fresh both_sinks_config)
              (log Info a_call_site [text "first"] (Return tt))) in
  let m2 := run log_schedule (start (shared m1)
              (log Error a_call_site [text "second"] (Return tt))) in
  (files_open log_schedule ∧ caller m1 = Return tt ∧ caller m2 = Return tt) ∧
  ∃ time1 time2 record1 record2,
    render (log_format (log_config (fresh both_sinks_config))) time1
      (stream_all [text "first"]) Info a_call_site = Ok record1 ∧
    render (log_format (log_config (fresh both_sinks_config))) time2
      (stream_all [text "second"]) Error a_call_site = Ok record2 ∧
    cerr (shared m2) =
      cerr (fresh both_sinks_config) ++
      (if console_output (log_config (fresh both_sinks_config))
       then [record1; record2] else []) ∧
    (if file_output (log_config (fresh both_sinks_config))
     then chunks (log_filename (log_config (fresh both_sinks_config))) (shared m2) =
            chunks (log_filename (log_config (fresh both_sinks_config)))
              (fresh both_sinks_config) ++ [record1; record2]
     else files (shared m2) = files (fresh both_sinks_config)).
Proof.
  intros m1 m2.
  split; [split; [apply log_schedule_files_open|split; reflexivity]|].
  apply (two_logs_append_in_order (fresh both_sinks_config) Info a_call_site
           [text "first"] Error a_call_site [text "second"]
           log_schedule log_schedule
           log_schedule_files_open log_schedule_files_open);
    reflexivity.
Defined.

(** X7 on an Error call with the console sink off: the console is left
    red. *)
Lemma console_attribute_after_log_witness :
  let m := run log_schedule (start (fresh quiet_config)
             (log Error a_call_site [text "Failed to locate file"] (Return tt))) in
  caller m = Return tt ∧ console_attribute (shared m) = FOREGROUND_RED.
Proof.
  intros m. split; [reflexivity|].
  exact (console_attribute_after_log (fresh quiet_config) Error a_call_site
           [text "Failed to locate file"] log_schedule eq_refl).
Defined.

(** X9 on a registered tag under a template of two placeholders. *)
Lemma end_profiling_terminates_without_timestamp_witness :
  (profiling_data (profiling short_config) !! "T" = Some 1000 ∧
   find_nat (log_format short_config) "%timestamp%" = None ∧
   (N.of_nat (String.length (log_format short_config)) < npos)%N ∧
   log_mutex (profiling short_config) = None) ∧
  caller (run (replicate 5 (caller_moves 1000 epoch))
            (start (profiling short_config) (end_profiling_here "T")))
  = Terminate.
Proof.
  split; [repeat split|].
  exact (proj2 (end_profiling_terminates_without_timestamp "logger.hpp"
                  "end_profiling" (profiling short_config) "T" 1000
                  eq_refl eq_refl eq_refl) eq_refl).
Defined.

(** X10 on a callable that returns 510. *)
Lemma profile_function_terminates_without_timestamp_witness :
  (find_nat (log_format short_config) "%timestamp%" = None ∧
   (N.of_nat (String.length (log_format short_config)) < npos)%N) ∧
  caller (run (replicate 5 (caller_moves 0 epoch))
            (start (fresh short_config) (profile_function_here "X" successor 509%nat)))
  = Terminate.
Proof.
  split; [split; reflexivity|].
  exact (proj1 (proj2 (profile_function_terminates_without_timestamp "logger.hpp"
                  "profile_function" (fresh short_config) "X" successor 509%nat
                  eq_refl eq_refl))).
Defined.

(** X12 on a callable during which the clock goes back from 10000 to 5500:
    the call returns 510 and the record reports -4 microseconds. *)
Lemma profile_function_reports_elapsed_witness :
  let m := run backward_schedule (start (fresh default_config)
             (profile_function_here "X" successor 509%nat)) in
  caller m = Return 510%nat ∧
  pool m =
    [Worker ("[2024-01-02 03:04:05%] [*] Execution time for X: -4 microseconds"
             +:+ newline +:+
             " -> File: logger.hpp:76 (Function: profile_function)" +:+ newline)
            Debug (Return tt)] ∧
  ∃ l0 l2 log_message,
    clock_reading l0 = 10000 ∧ clock_reading l2 = 5500 ∧
    pool m = [Worker log_message Debug (Return tt)] ∧
    microseconds (clock_reading l0) (clock_reading l2) < 0.
Proof.
  intros m. split; [reflexivity|]. split; [vm_compute; reflexivity|].
  destruct (profile_function_reports_elapsed "logger.hpp" "profile_function"
              (fresh default_config) "X" successor 509%nat backward_schedule 510%nat
              eq_refl)
    as (l0 & l1 & l2 & rest & time & s & Hl & _ & _ & _ & _ & Hp & _ & Hneg).
  injection Hl as <- _ <- _.
  exists (caller_moves 10000 a_time), (caller_moves 5500 a_time), s.
  split; [reflexivity|]. split; [reflexivity|]. split; [exact Hp|].
  apply Hneg. vm_compute. discriminate.
Defined.

(** X11 on a fresh process whose sinks are off: "T" started at reading 5000
    and ended at reading 100001000. *)
Lemma start_then_end_round_trip_witness :
  let m1 := run restart_schedule (start (fresh quiet_config) (start_profiling "T")) in
  let m2 := run end_schedule (start (shared m1) (end_profiling_here "T")) in
  (console_output quiet_config = false ∧ file_output quiet_config = false ∧
   caller m1 = Return tt ∧ caller m2 = Return tt) ∧
  ∃ l1 l2 log_message,
    clock_reading l1 = 5000 ∧ clock_reading l2 = 100001000 ∧
    profiling_data (shared m1) = <["T" := 5000]> ∅ ∧
    profiling_data (shared m2) = delete "T" ∅ ∧
    cerr (shared m2) = [] ∧ files (shared m2) = ∅ ∧
    pool m2 = [Worker log_message Debug (Return tt)] ∧
    0 ≤ microseconds (clock_reading l1) (clock_reading l2).
Proof.
  intros m1 m2. split; [repeat split|].
  destruct (start_then_end_round_trip "logger.hpp" "end_profiling" (fresh quiet_config)
              "T" restart_schedule end_schedule eq_refl eq_refl eq_refl eq_refl)
    as (a1 & l1 & rest1 & a2 & l2 & rest2 & time & s & Hl1 & Hl2 & Hd1 & Hd2 & _ &
        Hc & Hf & _ & Hp & Hpos & _).
  injection Hl1 as _ <- _. injection Hl2 as _ <- _.
  exists (caller_moves 5000 a_time), (caller_moves 100001000 a_time), s.
  split; [reflexivity|]. split; [reflexivity|]. split; [exact Hd1|].
  split; [exact Hd2|]. split; [exact Hc|]. split; [exact Hf|]. split; [exact Hp|].
  apply Hpos. vm_compute. discriminate.
Defined.

(** X6 on a call that returns and on a call that throws. *)
Lemma log_leaves_state_alone_witness :
  let m := run log_schedule (start (fresh default_config)
             (log Info a_call_site [text "hello"] (Return tt))) in
  let m' := run log_schedule (start (fresh short_config)
              (log Info a_call_site [text "hello"] (Return tt))) in
  (left_call (caller m) ∧ caller m' = Throw out_of_range) ∧
  log_mutex (shared m) = None ∧
  pool m' = [] ∧ cerr (shared m') = [] ∧ files (shared m') = ∅.
Proof.
  intros m m'. split; [split; [exact I|reflexivity]|].
  split.
  - exact (proj1 (proj2 (proj2 (proj2 (proj2
      (log_leaves_state_alone (fresh default_config) Info a_call_site
         [text "hello"] log_schedule))))) I).
  - exact (proj2 (proj2 (proj2 (proj2 (proj2 (proj2
      (log_leaves_state_alone (fresh short_config) Info a_call_site
         [text "hello"] log_schedule))))) out_of_range eq_refl)).
Defined.


(** X15 on a fresh process. *)
Lemma start_profiling_touches_registry_only_witness :
  let m := run restart_schedule (start (fresh default_config) (start_profiling "T")) in
  caller m = Return tt ∧ log_mutex (shared m) = None ∧ pool m = [] ∧
  cerr (shared m) = [].
Proof.
  intros m. split; [reflexivity|].
  pose proof (start_profiling_touches_registry_only (fresh default_config) "T"
                restart_schedule) as (_ & Hc & _ & _ & _ & Hp & _ & _ & Hr & _).
  split; [exact (proj2 (Hr eq_refl))|]. split; [exact Hp|exact Hc].
Defined.
